(** * Persistent control connection of the p2p daemon

    A shallow embedding of [persistent_stream.go] (package [p2pd]) and of the
    watchdog gate of [p2pd/main.go].  Goroutines are cut at their blocking
    points (stream I/O, channel operations, [select]); every piece between two
    blocking points is one atomic step of a transition system over the
    daemon's fields, the live goroutines and a trace of what was written. *)

From Stdlib Require Import ZArith List.
From Stdlib.Strings Require Import Byte Ascii.
From stdpp Require Import gmap strings list fin_maps pretty.

#[global] Instance byte_eq_dec : EqDecision byte := Byte.byte_eq_dec.
#[global] Instance byte_countable : Countable byte :=
  inj_countable Byte.to_N Byte.of_N Byte.of_to_N.

(** ** Wire messages *)

Module pb.

(** Modelled from the spec: the message types of package [pb] (the generated
    [pb/] sources are not under src/).  Field names follow the accesses in
    [persistent_stream.go] ([CallId], [Message], [Peer], [Proto]) and the
    schema of the spec for the rest. *)
Record CallUnaryRequest := mkCallUnaryRequest {
  Peer : list byte;
  Proto : string;
  Payload : list byte
}.

Inductive CallUnaryResponse :=
| Result_Payload (payload : list byte)
| Result_Error (error : string).

(** The [Message] oneof of a request; [Request_NotSet] is the nil interface of
    a frame that carries no variant. *)
Inductive RequestMessage :=
| Request_NotSet
| Request_AddUnaryHandler (proto : string)
| Request_CallUnary (call : CallUnaryRequest)
| Request_UnaryResponse (resp : CallUnaryResponse)
| Request_Cancel.

Record PersistentConnectionRequest := mkRequest {
  CallId : list byte;
  Message : RequestMessage
}.

(** The [Message] oneof of a response.  [Response_Ok] is the nil oneof that
    [okUnaryCallResponse] leaves; a [CallUnaryResponse] wrapper may hold the
    nil pointer returned by [GetUnaryResponse]. *)
Inductive ResponseMessage :=
| Response_Ok
| Response_CallUnaryResponse (resp : option CallUnaryResponse)
| Response_RequestHandling (call : CallUnaryRequest)
| Response_Cancel
| Response_DaemonError (message : string).

Record PersistentConnectionResponse := mkResponse {
  RCallId : list byte;
  RMessage : ResponseMessage
}.

(** Generated getters: the payload of the variant, or nil for another one. *)
Definition GetCallUnary (req : PersistentConnectionRequest) : option CallUnaryRequest :=
  match Message req with
  | Request_CallUnary c => Some c
  | _ => None
  end.

Definition GetUnaryResponse (req : PersistentConnectionRequest) : option CallUnaryResponse :=
  match Message req with
  | Request_UnaryResponse r => Some r
  | _ => None
  end.

#[global] Instance CallUnaryRequest_eq_dec : EqDecision CallUnaryRequest.
Proof. solve_decision. Defined.
#[global] Instance CallUnaryResponse_eq_dec : EqDecision CallUnaryResponse.
Proof. solve_decision. Defined.
#[global] Instance ResponseMessage_eq_dec : EqDecision ResponseMessage.
Proof. solve_decision. Defined.
#[global] Instance PersistentConnectionResponse_eq_dec :
  EqDecision PersistentConnectionResponse.
Proof. solve_decision. Defined.

End pb.
Import pb.

(** ** Call identifiers: [github.com/google/uuid] *)

(** A [UUID] is a [[16]byte]. *)
Abbreviation UUID := (list byte).

Module uuid.

Definition Nil : UUID := repeat x00 16.

(** [uuid.FromBytes]: the bytes themselves when there are sixteen of them,
    otherwise the zero value and an error. *)
Definition FromBytes (b : list byte) : UUID * option string :=
  if decide (length b = 16)
  then (b, None)
  else (Nil, Some ("invalid UUID (got " +:+ pretty (length b) +:+ " bytes)")).

(** What [fmt]'s verb [%d] prints for a [UUID]: the verb is not one of those
    that go through [String()], so the array is printed element by element. *)
Definition fmt_d (u : UUID) : string :=
  "[" +:+ String.concat " " (map (fun b => pretty (Byte.to_N b)) u) +:+ "]".

End uuid.

(** ** The daemon, its goroutines and the trace *)

(** Session writers ([safeWriter] values, one per upgraded connection),
    contexts, channels, P2P streams and peers are identified by numbers and
    byte strings. *)
Abbreviation Writer := nat.
Abbreviation Ctx := nat.
Abbreviation Chan := nat.
Abbreviation Stream := nat.
Abbreviation PeerID := (list byte).

(** The goroutine started by [exchangeMessages], by the operation it is
    blocked in: the framed write, the framed read, the unguarded send
    [rc <- errorUnaryCall(...)], the final [select] that offers the response,
    or returned (the deferred [close(rc)] has run). *)
Inductive Exchange :=
| ExWriting
| ExReading
| ExSending (resp : PersistentConnectionResponse)
| ExOffering (resp : PersistentConnectionResponse)
| ExClosed.

(** The [CallUnary] worker inside [doUnaryCall]: in [host.NewStream], or in
    the [select] over the exchange channel and [ctx.Done()]. *)
Inductive CallPhase :=
| CallOpening (pid : PeerID)
| CallSelecting (s : Stream) (ex : Exchange).

Record CallTask := mkCallTask {
  callWriter : Writer;
  callID : UUID;
  callReq : PersistentConnectionRequest;
  callPhase : CallPhase
}.

(** An inbound stream handler that has stored its channel and notified the
    client, by the operation it is blocked in: the [select] over
    [awaitReadFail] and [rc], the [cw.WriteMsg] of the [Cancel] of the first
    case, or the stream write of the response received in the second case. *)
Inductive HandlerPhase :=
| HSelecting
| HCancelling
| HResponding (response : PersistentConnectionRequest).

(** Such a handler, with what its closure holds: the client writer [cw], the
    parsed call id, the stream and the context of [awaitReadFail].  It is
    recorded under its channel [rc] until its deferred calls have run. *)
Record Handling := mkHandling {
  handlingWriter : Writer;
  handlingCallID : UUID;
  handlingStream : Stream;
  handlingCtx : Ctx;
  handlingPhase : HandlerPhase
}.

(** A [UnaryResponse] goroutine blocked in the send [rc <- req] of
    [doSendReponseToRemote]: the channel it loaded, the writer of its
    session and the request. *)
Record Send := mkSend {
  sendChan : Chan;
  sendWriter : Writer;
  sendReq : PersistentConnectionRequest
}.

(** The fields of [Daemon] that [persistent_stream.go] uses.  [host] is the
    stream-handler table of [d.host]: a protocol maps to the client writer
    that the installed closure of [getPersistentStreamHandler] captured.  The
    two [sync.Map]s hold, per call id, the context whose [CancelFunc] was
    stored and the channel that was stored. *)
Record Daemon := mkDaemon {
  host : gmap string Writer;
  registeredUnaryProtocols : gmap string bool;
  cancelUnary : gmap UUID Ctx;
  responseWaiters : gmap UUID Chan;
  cancelTerminateTimer : option Ctx;
  terminateWG : Z;
  terminateOnce : bool;
  persistentConnMsgMaxSize : Z
}.

(** Contexts that are done, live goroutines, the [streamHandlers] slice of
    every live session, and the supply of fresh identifiers. *)
Record Runtime := mkRuntime {
  ctxDone : gset Ctx;
  calls : gmap Ctx CallTask;
  handlings : gmap Chan Handling;
  sends : list Send;
  sessions : gmap Writer (list string);
  nextId : nat
}.

(** What the daemon did to the outside: frames written to client writers,
    [WriteMsg] calls made with a nil response, frames written to P2P streams,
    streams closed, [awaitTermination] goroutines started, and whether a
    goroutine panicked. *)
Record Trace := mkTrace {
  clientFrames : list (Writer * PersistentConnectionResponse);
  nilWrites : list Writer;
  streamFrames : list (Stream * PersistentConnectionRequest);
  closedStreams : list Stream;
  awaitTerminationStarts : nat;
  panicked : bool
}.

Record World := mkWorld {
  daemon : Daemon;
  runtime : Runtime;
  trace : Trace
}.

Definition set_host (x : gmap string Writer) (d : Daemon) : Daemon :=
  {| host := x;
     registeredUnaryProtocols := registeredUnaryProtocols d;
     cancelUnary := cancelUnary d;
     responseWaiters := responseWaiters d;
     cancelTerminateTimer := cancelTerminateTimer d;
     terminateWG := terminateWG d;
     terminateOnce := terminateOnce d;
     persistentConnMsgMaxSize := persistentConnMsgMaxSize d |}.

Definition set_registeredUnaryProtocols (x : gmap string bool) (d : Daemon) : Daemon :=
  {| host := host d;
     registeredUnaryProtocols := x;
     cancelUnary := cancelUnary d;
     responseWaiters := responseWaiters d;
     cancelTerminateTimer := cancelTerminateTimer d;
     terminateWG := terminateWG d;
     terminateOnce := terminateOnce d;
     persistentConnMsgMaxSize := persistentConnMsgMaxSize d |}.

Definition set_cancelUnary (x : gmap UUID Ctx) (d : Daemon) : Daemon :=
  {| host := host d;
     registeredUnaryProtocols := registeredUnaryProtocols d;
     cancelUnary := x;
     responseWaiters := responseWaiters d;
     cancelTerminateTimer := cancelTerminateTimer d;
     terminateWG := terminateWG d;
     terminateOnce := terminateOnce d;
     persistentConnMsgMaxSize := persistentConnMsgMaxSize d |}.

Definition set_responseWaiters (x : gmap UUID Chan) (d : Daemon) : Daemon :=
  {| host := host d;
     registeredUnaryProtocols := registeredUnaryProtocols d;
     cancelUnary := cancelUnary d;
     responseWaiters := x;
     cancelTerminateTimer := cancelTerminateTimer d;
     terminateWG := terminateWG d;
     terminateOnce := terminateOnce d;
     persistentConnMsgMaxSize := persistentConnMsgMaxSize d |}.

Definition set_cancelTerminateTimer (x : option Ctx) (d : Daemon) : Daemon :=
  {| host := host d;
     registeredUnaryProtocols := registeredUnaryProtocols d;
     cancelUnary := cancelUnary d;
     responseWaiters := responseWaiters d;
     cancelTerminateTimer := x;
     terminateWG := terminateWG d;
     terminateOnce := terminateOnce d;
     persistentConnMsgMaxSize := persistentConnMsgMaxSize d |}.

Definition set_terminateWG (x : Z) (d : Daemon) : Daemon :=
  {| host := host d;
     registeredUnaryProtocols := registeredUnaryProtocols d;
     cancelUnary := cancelUnary d;
     responseWaiters := responseWaiters d;
     cancelTerminateTimer := cancelTerminateTimer d;
     terminateWG := x;
     terminateOnce := terminateOnce d;
     persistentConnMsgMaxSize := persistentConnMsgMaxSize d |}.

Definition set_terminateOnce (x : bool) (d : Daemon) : Daemon :=
  {| host := host d;
     registeredUnaryProtocols := registeredUnaryProtocols d;
     cancelUnary := cancelUnary d;
     responseWaiters := responseWaiters d;
     cancelTerminateTimer := cancelTerminateTimer d;
     terminateWG := terminateWG d;
     terminateOnce := x;
     persistentConnMsgMaxSize := persistentConnMsgMaxSize d |}.

Definition set_persistentConnMsgMaxSize (x : Z) (d : Daemon) : Daemon :=
  {| host := host d;
     registeredUnaryProtocols := registeredUnaryProtocols d;
     cancelUnary := cancelUnary d;
     responseWaiters := responseWaiters d;
     cancelTerminateTimer := cancelTerminateTimer d;
     terminateWG := terminateWG d;
     terminateOnce := terminateOnce d;
     persistentConnMsgMaxSize := x |}.

Definition set_ctxDone (x : gset Ctx) (r : Runtime) : Runtime :=
  {| ctxDone := x;
     calls := calls r;
     handlings := handlings r;
     sends := sends r;
     sessions := sessions r;
     nextId := nextId r |}.

Definition set_calls (x : gmap Ctx CallTask) (r : Runtime) : Runtime :=
  {| ctxDone := ctxDone r;
     calls := x;
     handlings := handlings r;
     sends := sends r;
     sessions := sessions r;
     nextId := nextId r |}.

Definition set_handlings (x : gmap Chan Handling) (r : Runtime) : Runtime :=
  {| ctxDone := ctxDone r;
     calls := calls r;
     handlings := x;
     sends := sends r;
     sessions := sessions r;
     nextId := nextId r |}.

Definition set_sends (x : list Send) (r : Runtime) : Runtime :=
  {| ctxDone := ctxDone r;
     calls := calls r;
     handlings := handlings r;
     sends := x;
     sessions := sessions r;
     nextId := nextId r |}.

Definition set_sessions (x : gmap Writer (list string)) (r : Runtime) : Runtime :=
  {| ctxDone := ctxDone r;
     calls := calls r;
     handlings := handlings r;
     sends := sends r;
     sessions := x;
     nextId := nextId r |}.

Definition set_nextId (x : nat) (r : Runtime) : Runtime :=
  {| ctxDone := ctxDone r;
     calls := calls r;
     handlings := handlings r;
     sends := sends r;
     sessions := sessions r;
     nextId := x |}.

Definition set_clientFrames (x : list (Writer * PersistentConnectionResponse)) (t : Trace) : Trace :=
  {| clientFrames := x;
     nilWrites := nilWrites t;
     streamFrames := streamFrames t;
     closedStreams := closedStreams t;
     awaitTerminationStarts := awaitTerminationStarts t;
     panicked := panicked t |}.

Definition set_nilWrites (x : list Writer) (t : Trace) : Trace :=
  {| clientFrames := clientFrames t;
     nilWrites := x;
     streamFrames := streamFrames t;
     closedStreams := closedStreams t;
     awaitTerminationStarts := awaitTerminationStarts t;
     panicked := panicked t |}.

Definition set_streamFrames (x : list (Stream * PersistentConnectionRequest)) (t : Trace) : Trace :=
  {| clientFrames := clientFrames t;
     nilWrites := nilWrites t;
     streamFrames := x;
     closedStreams := closedStreams t;
     awaitTerminationStarts := awaitTerminationStarts t;
     panicked := panicked t |}.

Definition set_closedStreams (x : list Stream) (t : Trace) : Trace :=
  {| clientFrames := clientFrames t;
     nilWrites := nilWrites t;
     streamFrames := streamFrames t;
     closedStreams := x;
     awaitTerminationStarts := awaitTerminationStarts t;
     panicked := panicked t |}.

Definition set_awaitTerminationStarts (x : nat) (t : Trace) : Trace :=
  {| clientFrames := clientFrames t;
     nilWrites := nilWrites t;
     streamFrames := streamFrames t;
     closedStreams := closedStreams t;
     awaitTerminationStarts := x;
     panicked := panicked t |}.

Definition set_panicked (x : bool) (t : Trace) : Trace :=
  {| clientFrames := clientFrames t;
     nilWrites := nilWrites t;
     streamFrames := streamFrames t;
     closedStreams := closedStreams t;
     awaitTerminationStarts := awaitTerminationStarts t;
     panicked := x |}.

Definition on_daemon (f : Daemon -> Daemon) (w : World) : World :=
  {| daemon := f (daemon w); runtime := runtime w; trace := trace w |}.

Definition on_runtime (f : Runtime -> Runtime) (w : World) : World :=
  {| daemon := daemon w; runtime := f (runtime w); trace := trace w |}.

Definition on_trace (f : Trace -> Trace) (w : World) : World :=
  {| daemon := daemon w; runtime := runtime w; trace := f (trace w) |}.

(** ** Effects *)

(** [w.WriteMsg(resp)] on the client writer [cw]. *)
Definition WriteMsg (cw : Writer) (resp : PersistentConnectionResponse) (w : World) : World :=
  on_trace (fun t => set_clientFrames (clientFrames t ++ [(cw, resp)]) t) w.

(** [w.WriteMsg(resp)] when [resp] is the nil pointer. *)
Definition WriteNil (cw : Writer) (w : World) : World :=
  on_trace (fun t => set_nilWrites (nilWrites t ++ [cw]) t) w.

(** [ggio.NewDelimitedWriter(s).WriteMsg(req)] on a P2P stream. *)
Definition StreamWriteMsg (s : Stream) (req : PersistentConnectionRequest) (w : World) : World :=
  on_trace (fun t => set_streamFrames (streamFrames t ++ [(s, req)]) t) w.

(** [s.Close()]. *)
Definition StreamClose (s : Stream) (w : World) : World :=
  on_trace (fun t => set_closedStreams (closedStreams t ++ [s]) t) w.

(** Calling the [CancelFunc] of context [k]. *)
Definition cancel (k : Ctx) (w : World) : World :=
  on_runtime (fun r => set_ctxDone ({[k]} ∪ ctxDone r) r) w.

(** [ctx.Err() != nil]. *)
Definition ctxErr (k : Ctx) (w : World) : bool :=
  bool_decide (k ∈ ctxDone (runtime w)).

(** A nil-pointer dereference in a goroutine. *)
Definition panic (w : World) : World :=
  on_trace (set_panicked true) w.

(** A fresh context or channel. *)
Definition fresh (w : World) : nat * World :=
  (nextId (runtime w), on_runtime (fun r => set_nextId (S (nextId r)) r) w).

(** ** Response constructors *)

Definition errorUnaryCall (callID : UUID) (err : string) : PersistentConnectionResponse :=
  {| RCallId := callID; RMessage := Response_DaemonError err |}.

Definition errorUnaryCallString (callID : UUID) (errMsg : string) : PersistentConnectionResponse :=
  {| RCallId := callID; RMessage := Response_DaemonError errMsg |}.

Definition okUnaryCallResponse (callID : UUID) : PersistentConnectionResponse :=
  {| RCallId := callID; RMessage := Response_Ok |}.

Definition okCancelled (callID : UUID) : PersistentConnectionResponse :=
  {| RCallId := callID; RMessage := Response_Cancel |}.

Definition isDaemonError (resp : PersistentConnectionResponse) : bool :=
  match RMessage resp with
  | Response_DaemonError _ => true
  | _ => false
  end.

(** The frames a client writer received, oldest first. *)
Definition framesOf (cw : Writer) (w : World) : list PersistentConnectionResponse :=
  (filter (fun f => f.1 = cw) (clientFrames (trace w))).*2.

(** ** Protocol registration *)

(** [doAddUnaryHandler], run under [d.mx]. *)
Definition doAddUnaryHandler (cw : Writer) (callID : UUID) (proto : string) (w : World)
  : World * PersistentConnectionResponse :=
  let p := proto in
  match registeredUnaryProtocols (daemon w) !! p with
  | Some true =>
      (w, errorUnaryCallString callID ("handler for protocol " +:+ proto +:+ " already set"))
  | _ =>
      let w := on_daemon (fun d => set_host (<[p := cw]> (host d)) d) w in
      let w := on_daemon (fun d =>
        set_registeredUnaryProtocols (<[p := true]> (registeredUnaryProtocols d)) d) w in
      (w, okUnaryCallResponse callID)
  end.

(** [streamHandlers = append(streamHandlers, proto)] in the session that
    owns writer [cw]. *)
Definition appendStreamHandler (cw : Writer) (proto : string) (w : World) : World :=
  on_runtime (fun r => set_sessions (alter (fun hs => hs ++ [proto]) cw (sessions r)) r) w.

(** The goroutine of the [AddUnaryHandler] case: register, record the
    protocol in the session unless the response is a [DaemonError], then
    write the response. *)
Definition addUnaryHandlerWorker (cw : Writer) (callID : UUID) (proto : string) (w : World) : World :=
  let '(w, resp) := doAddUnaryHandler cw callID proto w in
  let w := if isDaemonError resp then w else appendStreamHandler cw proto w in
  WriteMsg cw resp w.

(** ** Session entry and exit *)

(** The prologue of [handleUpgradedConn]: cancel the termination timer when
    one is set, [terminateWG.Add(1)], and start [awaitTermination] through
    [terminateOnce]. *)
Definition sessionEnter (cw : Writer) (w : World) : World :=
  let w := match cancelTerminateTimer (daemon w) with
           | Some k => cancel k w
           | None => w
           end in
  let w := on_daemon (fun d => set_terminateWG (terminateWG d + 1)%Z d) w in
  let w := if terminateOnce (daemon w) then w
           else on_trace (fun t => set_awaitTerminationStarts (S (awaitTerminationStarts t)) t)
                  (on_daemon (set_terminateOnce true) w) in
  on_runtime (fun r => set_sessions (<[cw := []]> (sessions r)) r) w.

(** The body of the deferred cleanup loop for one protocol. *)
Definition removeStreamHandler (d : Daemon) (proto : string) : Daemon :=
  let p := proto in
  set_registeredUnaryProtocols (<[p := false]> (registeredUnaryProtocols d))
    (set_host (delete p (host d)) d).

(** The deferred calls of [handleUpgradedConn], last registered first:
    [terminateWG.Done()], then the loop over [streamHandlers]. *)
Definition sessionExit (cw : Writer) (w : World) : World :=
  match sessions (runtime w) !! cw with
  | None => w
  | Some streamHandlers =>
      let w := on_daemon (fun d => set_terminateWG (terminateWG d - 1)%Z d) w in
      let w := on_daemon (fun d => foldl removeStreamHandler d streamHandlers) w in
      on_runtime (fun r => set_sessions (delete cw (sessions r)) r) w
  end.

(** ** Framed reading *)

(** What a delimited reader finds on its byte source: a transport error, or
    one frame, given by the length its varint prefix announces and by the
    request its body unmarshals to, if it does. *)
Record Frame := mkFrame {
  frameLen : Z;
  frameBody : option PersistentConnectionRequest
}.

Inductive StreamInput :=
| InputError (err : string)
| InputFrame (f : Frame).

(** [network.MessageSizeMax] of go-libp2p-core: [1 << 22]. *)
Definition MessageSizeMax : Z := 4194304.

(** [ReadMsg] of the reader made by [ggio.NewDelimitedReader(_, maxSize)]:
    a frame whose announced length is negative or above [maxSize] is refused
    with [io.ErrShortBuffer]. *)
Definition ReadMsg (maxSize : Z) (input : StreamInput) : string + PersistentConnectionRequest :=
  match input with
  | InputError err => inl err
  | InputFrame f =>
      if bool_decide (frameLen f < 0 ∨ maxSize < frameLen f)%Z then inl "short buffer"
      else match frameBody f with
           | Some req => inr req
           | None => inl "proto: cannot unmarshal"
           end
  end.

(** Modelled from the spec: the reader [r] that [handleUpgradedConn] is given
    is built by the connection code (conn.go, not under src/); the spec has
    it enforce [persistent_conn_max_msg_size]. *)
Definition clientReadMsg (d : Daemon) (input : StreamInput)
  : string + PersistentConnectionRequest :=
  ReadMsg (persistentConnMsgMaxSize d) input.

(** ** Inbound streams *)

(** The deferred calls of the stream handler once the waiter is stored, last
    registered first: [cancel()], [responseWaiters.Delete(callID)],
    [s.Close()]. *)
Definition handlingReturn (callID : UUID) (s : Stream) (ctx : Ctx) (w : World) : World :=
  let w := cancel ctx w in
  let w := on_daemon (fun d => set_responseWaiters (delete callID (responseWaiters d)) d) w in
  StreamClose s w.

(** The closure returned by [getPersistentStreamHandler cw], from its start
    on stream [s] up to its [select].  [remote] is [s.Conn().RemotePeer()],
    [input] what the stream delivers first, [clientErr] the error of the
    [cw.WriteMsg] of the notification, if it fails. *)
Definition streamHandler (cw : Writer) (s : Stream) (remote : PeerID) (input : StreamInput)
    (clientErr : option string) (w : World) : World :=
  match ReadMsg MessageSizeMax input with
  | inl _ => StreamClose s w
  | inr req =>
      match GetCallUnary req with
      | None => panic (StreamClose s w)
      | Some call =>
          let call := {| Peer := remote; Proto := Proto call; Payload := Payload call |} in
          match uuid.FromBytes (CallId req) with
          | (_, Some _) => StreamClose s w
          | (callID, None) =>
              let '(rc, w) := fresh w in
              let w := on_daemon (fun d =>
                set_responseWaiters (<[callID := rc]> (responseWaiters d)) d) w in
              let '(ctx, w) := fresh w in
              let resp := {| RCallId := CallId req;
                             RMessage := Response_RequestHandling call |} in
              match clientErr with
              | Some _ => handlingReturn callID s ctx w
              | None =>
                  let w := WriteMsg cw resp w in
                  on_runtime (fun r =>
                    set_handlings (<[rc := mkHandling cw callID s ctx HSelecting]>
                                     (handlings r)) r) w
              end
          end
      end
  end.

Definition setHandlingPhase (rc : Chan) (h : Handling) (ph : HandlerPhase) (w : World) : World :=
  on_runtime (fun r =>
    set_handlings
      (<[rc := mkHandling (handlingWriter h) (handlingCallID h) (handlingStream h)
                 (handlingCtx h) ph]> (handlings r)) r) w.

(** The first case of the handler's [select]: the channel of [awaitReadFail]
    delivers, which it does as soon as the one-byte read returns (a value is
    sent on a read error, and the channel is closed in any case).  The
    handler goes on to [cw.WriteMsg] of the [Cancel]; its channel stays in
    [responseWaiters]. *)
Definition streamHandlerReadReturned (rc : Chan) (w : World) : option World :=
  match handlings (runtime w) !! rc with
  | Some h =>
      match handlingPhase h with
      | HSelecting => Some (setHandlingPhase rc h HCancelling w)
      | _ => None
      end
  | None => None
  end.

(** [doSendReponseToRemote] up to its send: the response it returns at once,
    or the channel it loaded and sends the request on. *)
Definition doSendReponseToRemote (req : PersistentConnectionRequest) (w : World)
  : PersistentConnectionResponse + Chan :=
  match uuid.FromBytes (CallId req) with
  | (callID, Some _) =>
      inl (errorUnaryCallString callID "malformed request: call id not in UUID format")
  | (callID, None) =>
      match responseWaiters (daemon w) !! callID with
      | None =>
          inl (errorUnaryCallString callID
                 ("Response for call id " +:+ uuid.fmt_d callID
                    +:+ " not requested or cancelled"))
      | Some rc => inr rc
      end
  end.

(** The goroutine of the [UnaryResponse] case up to its first blocking
    point: the response is written, or the goroutine blocks in the send,
    which is not guarded by any context. *)
Definition unaryResponseWorker (cw : Writer) (req : PersistentConnectionRequest) (w : World) : World :=
  match doSendReponseToRemote req w with
  | inl resp => WriteMsg cw resp w
  | inr rc => on_runtime (fun r => set_sends (sends r ++ [mkSend rc cw req]) r) w
  end.

(** The second case of the handler's [select]: the handler, parked in its
    [select], receives what the [k]-th blocked goroutine sends on its
    channel and goes on to write it to the stream.  The send has completed:
    [doSendReponseToRemote] returns [okUnaryCallResponse] and the sending
    goroutine writes it to its client. *)
Definition streamHandlerResponse (k : nat) (w : World) : option World :=
  match sends (runtime w) !! k with
  | Some snd =>
      match handlings (runtime w) !! sendChan snd with
      | Some h =>
          match handlingPhase h with
          | HSelecting =>
              let w := on_runtime (fun r => set_sends (delete k (sends r)) r) w in
              let w := setHandlingPhase (sendChan snd) h (HResponding (sendReq snd)) w in
              Some (WriteMsg (sendWriter snd)
                      (okUnaryCallResponse (uuid.FromBytes (CallId (sendReq snd))).1) w)
          | _ => None
          end
      | None => None
      end
  | None => None
  end.

(** The write the handler went on to returns, with its error if it failed:
    the [cw.WriteMsg] of the [Cancel], or the stream write of the response.
    An error is only logged; the handler returns and its deferred calls
    run. *)
Definition streamHandlerWriteReturned (rc : Chan) (err : option string) (w : World)
  : option World :=
  match handlings (runtime w) !! rc with
  | Some h =>
      match handlingPhase h with
      | HSelecting => None
      | HCancelling =>
          let w := match err with
                   | None => WriteMsg (handlingWriter h)
                               {| RCallId := handlingCallID h; RMessage := Response_Cancel |} w
                   | Some _ => w
                   end in
          let w := on_runtime (fun r => set_handlings (delete rc (handlings r)) r) w in
          Some (handlingReturn (handlingCallID h) (handlingStream h) (handlingCtx h) w)
      | HResponding response =>
          let w := match err with
                   | None => StreamWriteMsg (handlingStream h) response w
                   | Some _ => w
                   end in
          let w := on_runtime (fun r => set_handlings (delete rc (handlings r)) r) w in
          Some (handlingReturn (handlingCallID h) (handlingStream h) (handlingCtx h) w)
      end
  | None => None
  end.

(** The goroutine of the [Cancel] case. *)
Definition cancelWorker (callID : UUID) (w : World) : World :=
  match cancelUnary (daemon w) !! callID with
  | None => w
  | Some cf => cancel cf w
  end.

(** ** Outbound calls *)

Section WithPeerIDs.

(** [peer.IDFromBytes] of go-libp2p-core: the identity a byte string denotes,
    or the error of the multihash check. *)
Variable IDFromBytes : list byte -> string + PeerID.

(** The end of the [CallUnary] goroutine once [doUnaryCall] has its result:
    the deferred [remoteStream.Close()] of [doUnaryCall] when a stream was
    opened, [w.WriteMsg(resp)], then the goroutine's own deferred calls,
    [cancelUnary.Delete(callID)] and [cancel()]. *)
Definition callReturn (ctx : Ctx) (t : CallTask) (s : option Stream)
    (resp : option PersistentConnectionResponse) (w : World) : World :=
  let w := match s with
           | Some s => StreamClose s w
           | None => w
           end in
  let w := match resp with
           | Some resp => WriteMsg (callWriter t) resp w
           | None => WriteNil (callWriter t) w
           end in
  let w := on_daemon (fun d => set_cancelUnary (delete (callID t) (cancelUnary d)) d) w in
  let w := cancel ctx w in
  on_runtime (fun r => set_calls (delete ctx (calls r)) r) w.

Definition setPhase (ctx : Ctx) (t : CallTask) (ph : CallPhase) (w : World) : World :=
  on_runtime (fun r =>
    set_calls (<[ctx := mkCallTask (callWriter t) (callID t) (callReq t) ph]> (calls r)) r) w.

(** The goroutine of the [CallUnary] case up to [host.NewStream]: a fresh
    context, its [CancelFunc] stored under the call id, and the peer id of
    [doUnaryCall]. *)
Definition callUnaryWorker (cw : Writer) (callID : UUID) (req : PersistentConnectionRequest)
    (call : CallUnaryRequest) (w : World) : World :=
  let '(ctx, w) := fresh w in
  let w := on_daemon (fun d => set_cancelUnary (<[callID := ctx]> (cancelUnary d)) d) w in
  let t := mkCallTask cw callID req (CallOpening []) in
  match IDFromBytes (Peer call) with
  | inl err => callReturn ctx t None (Some (errorUnaryCall callID err)) w
  | inr pid => setPhase ctx t (CallOpening pid) w
  end.

(** [host.NewStream] returns: an error ends the call; with a stream the
    exchange goroutine starts and the worker enters its [select]. *)
Definition newStreamReturned (ctx : Ctx) (res : string + Stream) (w : World) : option World :=
  match calls (runtime w) !! ctx with
  | Some t =>
      match callPhase t with
      | CallOpening _ =>
          match res with
          | inl err => Some (callReturn ctx t None (Some (errorUnaryCall (callID t) err)) w)
          | inr remoteStream => Some (setPhase ctx t (CallSelecting remoteStream ExWriting) w)
          end
      | _ => None
      end
  | None => None
  end.

(** The call id that [exchangeMessages] parses again, ignoring the error. *)
Definition exchangeCallID (t : CallTask) : UUID := (uuid.FromBytes (CallId (callReq t))).1.

(** [exchangeMessages]: the framed write of the request returns. *)
Definition streamWriteReturned (ctx : Ctx) (err : option string) (w : World) : option World :=
  match calls (runtime w) !! ctx with
  | Some t =>
      match callPhase t with
      | CallSelecting s ExWriting =>
          let w := match err with
                   | None => StreamWriteMsg s (callReq t) w
                   | Some _ => w
                   end in
          let ex := if ctxErr ctx w then ExClosed
                    else match err with
                         | Some err => ExSending (errorUnaryCall (exchangeCallID t) err)
                         | None => ExReading
                         end in
          Some (setPhase ctx t (CallSelecting s ex) w)
      | _ => None
      end
  | None => None
  end.

(** [exchangeMessages]: the framed read of the remote response returns. *)
Definition streamReadReturned (ctx : Ctx) (input : StreamInput) (w : World) : option World :=
  match calls (runtime w) !! ctx with
  | Some t =>
      match callPhase t with
      | CallSelecting s ExReading =>
          let ex := if ctxErr ctx w then ExClosed
                    else match ReadMsg MessageSizeMax input with
                         | inl err => ExSending (errorUnaryCall (exchangeCallID t) err)
                         | inr remoteResp =>
                             ExOffering
                               {| RCallId := exchangeCallID t;
                                  RMessage :=
                                    Response_CallUnaryResponse (GetUnaryResponse remoteResp) |}
                         end in
          Some (setPhase ctx t (CallSelecting s ex) w)
      | _ => None
      end
  | None => None
  end.

(** [exchangeMessages]: the final [select] takes [ctx.Done()]. *)
Definition exchangeDone (ctx : Ctx) (w : World) : option World :=
  match calls (runtime w) !! ctx with
  | Some t =>
      match callPhase t with
      | CallSelecting s (ExOffering _) =>
          if ctxErr ctx w then Some (setPhase ctx t (CallSelecting s ExClosed) w) else None
      | _ => None
      end
  | None => None
  end.

(** [doUnaryCall]: the [select] takes the exchange channel.  A value is
    received when the exchange goroutine is sending one; a closed channel
    delivers the nil response. *)
Definition selectResponse (ctx : Ctx) (w : World) : option World :=
  match calls (runtime w) !! ctx with
  | Some t =>
      match callPhase t with
      | CallSelecting s (ExSending response) | CallSelecting s (ExOffering response) =>
          Some (callReturn ctx t (Some s) (Some response) w)
      | CallSelecting s ExClosed => Some (callReturn ctx t (Some s) None w)
      | _ => None
      end
  | None => None
  end.

(** [doUnaryCall]: the [select] takes [ctx.Done()]. *)
Definition selectDone (ctx : Ctx) (w : World) : option World :=
  match calls (runtime w) !! ctx with
  | Some t =>
      match callPhase t with
      | CallSelecting s _ =>
          if ctxErr ctx w then Some (callReturn ctx t (Some s) (Some (okCancelled (callID t))) w)
          else None
      | _ => None
      end
  | None => None
  end.

(** ** The session loop *)

(** One iteration of the loop of [handleUpgradedConn] for the session with
    writer [cw]: a read error ends the session, a call id that does not
    parse skips the request, and every other request starts the goroutine
    of its variant, run here up to its first blocking point. *)
Definition sessionRead (cw : Writer) (input : StreamInput) (w : World) : World :=
  match clientReadMsg (daemon w) input with
  | inl _ => sessionExit cw w
  | inr req =>
      match uuid.FromBytes (CallId req) with
      | (_, Some _) => w
      | (callID, None) =>
          match Message req with
          | Request_AddUnaryHandler proto => addUnaryHandlerWorker cw callID proto w
          | Request_CallUnary call => callUnaryWorker cw callID req call w
          | Request_UnaryResponse _ => unaryResponseWorker cw req w
          | Request_Cancel => cancelWorker callID w
          | Request_NotSet => w
          end
      end
  end.

(** ** The transition system *)

Inductive Event :=
| SessionAccepted (cw : Writer)
| SessionRead (cw : Writer) (input : StreamInput)
| InboundStream (proto : string) (s : Stream) (remote : PeerID) (input : StreamInput)
    (clientErr : option string)
| InboundReadReturned (rc : Chan)
| InboundResponseReceived (k : nat)
| InboundWriteReturned (rc : Chan) (err : option string)
| NewStreamReturned (ctx : Ctx) (res : string + Stream)
| StreamWriteReturned (ctx : Ctx) (err : option string)
| StreamReadReturned (ctx : Ctx) (input : StreamInput)
| ExchangeDone (ctx : Ctx)
| SelectResponse (ctx : Ctx)
| SelectDone (ctx : Ctx).

(** One step; [None] when the event cannot happen in [w]: the process has
    panicked, the session, handler or goroutine it names does not exist or
    is not at that point, or the host has no handler for the protocol. *)
Definition step (e : Event) (w : World) : option World :=
  if panicked (trace w) then None else
  match e with
  | SessionAccepted cw =>
      match sessions (runtime w) !! cw with
      | None => Some (sessionEnter cw w)
      | Some _ => None
      end
  | SessionRead cw input =>
      match sessions (runtime w) !! cw with
      | Some _ => Some (sessionRead cw input w)
      | None => None
      end
  | InboundStream proto s remote input clientErr =>
      match host (daemon w) !! proto with
      | Some cw => Some (streamHandler cw s remote input clientErr w)
      | None => None
      end
  | InboundReadReturned rc => streamHandlerReadReturned rc w
  | InboundResponseReceived k => streamHandlerResponse k w
  | InboundWriteReturned rc err => streamHandlerWriteReturned rc err w
  | NewStreamReturned ctx res => newStreamReturned ctx res w
  | StreamWriteReturned ctx err => streamWriteReturned ctx err w
  | StreamReadReturned ctx input => streamReadReturned ctx input w
  | ExchangeDone ctx => exchangeDone ctx w
  | SelectResponse ctx => selectResponse ctx w
  | SelectDone ctx => selectDone ctx w
  end.

Fixpoint run (es : list Event) (w : World) : option World :=
  match es with
  | [] => Some w
  | e :: es =>
      match step e w with
      | Some w => run es w
      | None => None
      end
  end.

End WithPeerIDs.

(** ** Start-up *)

(** Modelled from the spec: [NewDaemon] (daemon.go, not under src/) starts
    with empty registries, no termination timer, and the message size bound
    it is given. *)
Definition NewDaemon (persistentConnMaxMsgSize : Z) : World :=
  {| daemon := {| host := ∅; registeredUnaryProtocols := ∅; cancelUnary := ∅;
                  responseWaiters := ∅; cancelTerminateTimer := None;
                  terminateWG := 0; terminateOnce := false;
                  persistentConnMsgMaxSize := persistentConnMaxMsgSize |};
     runtime := {| ctxDone := ∅; calls := ∅; handlings := ∅; sends := []; sessions := ∅;
                   nextId := 0 |};
     trace := {| clientFrames := []; nilWrites := []; streamFrames := [];
                 closedStreams := []; awaitTerminationStarts := 0; panicked := false |} |}.

(** Modelled from the spec: [KillOnTimeout] (daemon.go, not under src/) arms
    the shutdown timer and leaves its cancel function in
    [cancelTerminateTimer]. *)
Definition KillOnTimeout (timeout : Z) (w : World) : World :=
  let '(ctx, w) := fresh w in
  on_daemon (set_cancelTerminateTimer (Some ctx)) w.

(** [main], from [p2pd.NewDaemon] to the watchdog gate: [idleTimeout] is the
    [time.Duration] of the flag, in nanoseconds. *)
Definition main (idleTimeout persistentConnMaxMsgSize : Z) : World :=
  let d := NewDaemon persistentConnMaxMsgSize in
  if bool_decide (idleTimeout > 0)%Z then KillOnTimeout idleTimeout d else d.

(** ** Notions used by the properties *)

(** The part of the state the termination watchdog lives in. *)
Definition watchdogView (w : World) : option Ctx * bool * nat :=
  (cancelTerminateTimer (daemon w), terminateOnce (daemon w),
   awaitTerminationStarts (trace w)).

Definition isSessionAccepted (e : Event) : bool :=
  match e with
  | SessionAccepted _ => true
  | _ => false
  end.

(** Identifiers in use are below the supply, a call goroutine carries the
    parsed id of its request, and a stored waiter belongs to a handler that
    has not returned. *)
Record wellFormed (w : World) : Prop := mkWellFormed {
  wf_done : ∀ k, k ∈ ctxDone (runtime w) → k < nextId (runtime w);
  wf_cancel : ∀ id k, cancelUnary (daemon w) !! id = Some k → k < nextId (runtime w);
  wf_calls : ∀ k t, calls (runtime w) !! k = Some t →
    k < nextId (runtime w) ∧ callID t = CallId (callReq t) ∧ length (callID t) = 16;
  wf_handlings : ∀ rc h, handlings (runtime w) !! rc = Some h →
    rc < nextId (runtime w) ∧ handlingCtx h < nextId (runtime w);
  wf_timer : ∀ k, cancelTerminateTimer (daemon w) = Some k → k < nextId (runtime w);
  wf_waiters : ∀ id rc, responseWaiters (daemon w) !! id = Some rc →
    ∃ h, handlings (runtime w) !! rc = Some h ∧ handlingCallID h = id;
  wf_sends : ∀ snd, snd ∈ sends (runtime w) →
    sendChan snd < nextId (runtime w) ∧ length (CallId (sendReq snd)) = 16
}.

(** How a call ended, seen from outside: one frame written to the client,
    no nil response, the call id gone from [cancelUnary], the goroutine
    gone, and the stream closed when one was opened. *)
Definition callEnded (ctx : Ctx) (t : CallTask) (s : option Stream)
    (resp : PersistentConnectionResponse) (w w' : World) : Prop :=
  clientFrames (trace w') = clientFrames (trace w) ++ [(callWriter t, resp)] ∧
  nilWrites (trace w') = nilWrites (trace w) ∧
  cancelUnary (daemon w') !! callID t = None ∧
  calls (runtime w') !! ctx = None ∧
  closedStreams (trace w') = closedStreams (trace w) ++ option_list s.

(** How a call ended when the worker's [select] took the exchange channel
    after it was closed: the nil response went to [WriteMsg], no frame was
    written for the call, the call id is gone from [cancelUnary], the
    goroutine is gone and the stream is closed. *)
Definition callEndedNil (ctx : Ctx) (t : CallTask) (s : Stream) (w w' : World) : Prop :=
  clientFrames (trace w') = clientFrames (trace w) ∧
  nilWrites (trace w') = nilWrites (trace w) ++ [callWriter t] ∧
  cancelUnary (daemon w') !! callID t = None ∧
  calls (runtime w') !! ctx = None ∧
  closedStreams (trace w') = closedStreams (trace w) ++ [s].





(** The handler of channel [rc] is not in its [select]: it has gone on to
    its last write, or it has returned. *)
Definition pastSelect (rc : Chan) (w : World) : Prop :=
  ∀ h, handlings (runtime w) !! rc = Some h → handlingPhase h ≠ HSelecting.

(** Under no schedule from [w] does the handler of channel [rc] take a
    request: a goroutine that sends on [rc] stays in its send. *)
Definition neverReceives (IDFromBytes : list byte → string + PeerID) (rc : Chan) (w : World)
  : Prop :=
  ∀ es w' k snd,
    run IDFromBytes es w = Some w' →
    sends (runtime w') !! k = Some snd →
    sendChan snd = rc →
    step IDFromBytes (InboundResponseReceived k) w' = None.

(** ** Sample values for the closed examples *)

Module Sample.

(** A stand-in for the multihash check: only the empty string is refused. *)
Definition IDFromBytes (b : list byte) : string + PeerID :=
  if decide (b = []) then inl "multihash too short. must be >= 2 bytes" else inr b.

(** A stand-in for the marshalled length of a request. *)
Definition size (req : PersistentConnectionRequest) : Z := 64.

Definition c0 : UUID := repeat x00 15 ++ [x01].
Definition c : UUID := repeat x01 16.
Definition peerA : list byte := [x12; x20; x0a].
Definition peerB : list byte := [x12; x20; x0b].

Definition frame (req : PersistentConnectionRequest) : StreamInput :=
  InputFrame (mkFrame (size req) (Some req)).

Definition register : PersistentConnectionRequest :=
  mkRequest c0 (Request_AddUnaryHandler "/p/1").
Definition call : PersistentConnectionRequest :=
  mkRequest c (Request_CallUnary (mkCallUnaryRequest peerA "/p/1" [x07])).
Definition answer : PersistentConnectionRequest :=
  mkRequest c (Request_UnaryResponse (Result_Payload [x09])).
Definition cancelCall : PersistentConnectionRequest := mkRequest c Request_Cancel.

(** A call whose id has three bytes. *)
Definition shortIdCall : PersistentConnectionRequest :=
  mkRequest [x01; x02; x03]
    (Request_CallUnary (mkCallUnaryRequest peerA "/p/1" [x07])).

(** A frame that announces 2000 bytes. *)
Definition frame2000 (req : PersistentConnectionRequest) : StreamInput :=
  InputFrame (mkFrame 2000 (Some req)).

(** A daemon started with the default bound and no idle timeout, with one
    session. *)
Definition oneSession : World := sessionEnter 0 (main 0 4194304).

(** The world a run from [main] ends in. *)
Definition after (idleTimeout maxSize : Z) (es : list Event) : World :=
  default (main idleTimeout maxSize) (run IDFromBytes es (main idleTimeout maxSize)).

(** Session 0 has registered ["/p/1"]. *)
Definition registering : list Event :=
  [SessionAccepted 0; SessionRead 0 (frame register)].
Definition registered : World := after 0 4194304 registering.

(** Session 0 has a call in flight on stream 2: the request is written and
    the exchange waits for the response. *)
Definition calling : list Event :=
  [SessionAccepted 0; SessionRead 0 (frame call); NewStreamReturned 0 (inr 2);
   StreamWriteReturned 0 None].
Definition inCall : World := after 0 4194304 calling.
Definition inCallTask : CallTask := mkCallTask 0 c call (CallSelecting 2 ExReading).


(** The response is read, then a [Cancel] for the call arrives. *)
Definition cancelledOffer : list Event :=
  calling ++ [StreamReadReturned 0 (frame answer); SessionRead 0 (frame cancelCall)].


(** Session 0 has registered ["/p/1"] and a handler waits for the client's
    answer to a call that came in on stream 1. *)
Definition handling : list Event :=
  registering ++ [InboundStream "/p/1" 1 peerB (frame call) None].
Definition inHandling : World := after 0 4194304 handling.

End Sample.

(** ** More of [p2pd/main.go] *)

(** [strings.Split(s, ",")]: the pieces of [s] between commas; a string
    without a comma, the empty one included, is its own single piece. *)
Fixpoint splitComma (s : string) : list string :=
  match s with
  | EmptyString => [EmptyString]
  | String ch rest =>
      if Ascii.eqb ch ","%char then EmptyString :: splitComma rest
      else match splitComma rest with
           | piece :: pieces => String ch piece :: pieces
           | [] => [String ch EmptyString]
           end
  end.

(** The relay flags of [main]. *)
Record RelayFlags := mkRelayFlags {
  relayEnabled : bool;
  autoRelay : bool;
  relayDiscovery : bool;
  trustedRelaysRaw : string
}.

(** The relay checks of [main]: the message of the [panic] that stops the
    start-up, or the trusted relays that are passed to [NewDaemon]. *)
Definition relayChecks (f : RelayFlags) : string + list string :=
  let trustedRelays :=
    if String.eqb (trustedRelaysRaw f) EmptyString then [] else splitComma (trustedRelaysRaw f) in
  if negb (String.eqb (trustedRelaysRaw f) EmptyString)
     && (0 <? length trustedRelays) && negb (relayEnabled f)
  then inl "Found staticRelays but relays are not enabled, expected -relayEnabled=1"
  else if negb (String.eqb (trustedRelaysRaw f) EmptyString)
          && (0 <? length trustedRelays) && negb (autoRelay f)
  then inl "Found staticRelays but autoRelay is not enabled, expected -autoRelay=1"
  else if autoRelay f && negb (relayDiscovery f) && (length trustedRelays =? 0)
  then inl ("Daemon with autoRelay requires either -relayDiscovery=1 or "
            +:+ "-trustedRelays=$STATIC_RELAYS_HERE")
  else inr trustedRelays.

(** The loop of [pprofHTTP] from port [i] with [n] ports left to try, as the
    ports on which [listen] is called.  [listen p] tells whether the call
    returns nil, which [http.ListenAndServe] makes it do when the server ran
    on [p] and was shut down. *)
Fixpoint pprofScan (listen : Z → bool) (n : nat) (i : Z) : list Z :=
  match n with
  | 0 => []
  | S n => if listen i then [i] else i :: pprofScan listen n (i + 1)
  end.

(** [pprofHTTP]: a port given by the user is the only one tried; otherwise
    the ports from 6060 to 7080 are tried in turn. *)
Definition pprofHTTP (listen : Z → bool) (port : Z) : list Z :=
  if (0 <? port)%Z then [port] else pprofScan listen 1021 6060.

(** The loop that [main] runs over the pieces of an address flag:
    [multiaddr.NewMultiaddr] on each piece in turn, [log.Fatal] on the first
    error. *)
Fixpoint parseEach {M : Type} (NewMultiaddr : string → string + M) (pieces : list string)
  : string + list M :=
  match pieces with
  | [] => inr []
  | s :: pieces =>
      match NewMultiaddr s with
      | inl err => inl err
      | inr ma =>
          match parseEach NewMultiaddr pieces with
          | inl err => inl err
          | inr mas => inr (ma :: mas)
          end
      end
  end.

(** An address flag of [main] ([-hostAddrs], [-announceAddrs],
    [-bootstrapPeers]): the empty flag leaves the configured addresses,
    another one replaces them by its parsed pieces. *)
Definition parseAddrs {M : Type} (NewMultiaddr : string → string + M) (flag : string)
    (configured : list M) : string + list M :=
  if String.eqb flag EmptyString then inr configured
  else parseEach NewMultiaddr (splitComma flag).

(** ** Further invariants *)

(** The host's handler table and the protocol registry agree, and a
    protocol listed by a session is handled by that session's writer. *)
Record registryConsistent (w : World) : Prop := mkRegistryConsistent {
  rc_host : ∀ p, is_Some (host (daemon w) !! p) ↔
                 registeredUnaryProtocols (daemon w) !! p = Some true;
  rc_owner : ∀ cw hs p, sessions (runtime w) !! cw = Some hs → p ∈ hs →
                        host (daemon w) !! p = Some cw
}.

(** A token stored in [cancelUnary] is the token of a call goroutine that
    has not returned and that was started with that call id. *)
Definition tokensLive (w : World) : Prop :=
  ∀ id k, cancelUnary (daemon w) !! id = Some k →
    ∃ t, calls (runtime w) !! k = Some t ∧ callID t = id.

(** ** More sample values *)

Module MoreSamples.

(** The server of [pprofHTTP] can run on port 6062 only. *)
Definition listen6062 (p : Z) : bool := (p =? 6062)%Z.

(** A stand-in for [multiaddr.NewMultiaddr]: only the empty string is
    refused. *)
Definition NewMultiaddr (s : string) : string + string :=
  if String.eqb s EmptyString then inl "failed to parse multiaddr: empty multiaddr" else inr s.

Definition register2 : PersistentConnectionRequest :=
  mkRequest Sample.c0 (Request_AddUnaryHandler "/p/2").

(** A second call with the call id of [Sample.call]. *)
Definition call2 : PersistentConnectionRequest :=
  mkRequest Sample.c (Request_CallUnary (mkCallUnaryRequest Sample.peerB "/p/2" [x08])).

(** A call to a peer whose id does not parse. *)
Definition badPeerCall : PersistentConnectionRequest :=
  mkRequest Sample.c (Request_CallUnary (mkCallUnaryRequest [] "/p/1" [x07])).

(** Session 0 has registered ["/p/1"] and session 1 ["/p/2"]. *)
Definition twoOwners : list Event :=
  Sample.registering ++ [SessionAccepted 1; SessionRead 1 (Sample.frame register2)].
Definition withTwoOwners : World := Sample.after 0 4194304 twoOwners.

(** The call of session 0 waits for the response and its token has fired. *)
Definition cancelledReading : list Event :=
  Sample.calling ++ [SessionRead 0 (Sample.frame Sample.cancelCall)].
Definition inCancelledRead : World := Sample.after 0 4194304 cancelledReading.

(** The call of session 0 is writing its request and its token has fired. *)
Definition cancelledWriting : list Event :=
  [SessionAccepted 0; SessionRead 0 (Sample.frame Sample.call); NewStreamReturned 0 (inr 2);
   SessionRead 0 (Sample.frame Sample.cancelCall)].
Definition inCancelledWrite : World := Sample.after 0 4194304 cancelledWriting.
Definition inWriteTask : CallTask :=
  mkCallTask 0 Sample.c Sample.call (CallSelecting 2 ExWriting).

(** The stream of the call that session 0 handles fails, and the client's
    answer is read while the handler writes its [Cancel]. *)
Definition answeredLate : list Event :=
  Sample.handling ++ [InboundReadReturned 0; SessionRead 0 (Sample.frame Sample.answer)].

(** The handler that waits in [Sample.inHandling]. *)
Definition waiting : Handling := mkHandling 0 Sample.c 1 1 HSelecting.

End MoreSamples.

(** * Properties *)

Ltac unfold_workers :=
  unfold sessionRead, sessionExit, sessionEnter, addUnaryHandlerWorker,
    doAddUnaryHandler, callUnaryWorker, unaryResponseWorker, doSendReponseToRemote,
    cancelWorker, streamHandler, streamHandlerReadReturned, streamHandlerResponse,
    streamHandlerWriteReturned, setHandlingPhase, handlingReturn, newStreamReturned, streamWriteReturned, streamReadReturned,
    exchangeDone, selectResponse, selectDone, callReturn, setPhase,
    appendStreamHandler, WriteMsg, WriteNil, StreamWriteMsg, StreamClose, cancel,
    panic, fresh in *.

(** Add a fact to the context unless it is there already. *)
Ltac learn H :=
  let T := type of H in
  lazymatch goal with
  | _ : T |- _ => fail
  | _ => pose proof H
  end.

(** Split hypotheses about updated maps and sets into their cases. *)
Ltac split_updates :=
  repeat match goal with
  | H : _ ∈ {[ _ ]} ∪ _ |- _ => apply elem_of_union in H as [?%elem_of_singleton|?]
  | H : <[_ := _]> _ !! _ = Some _ |- _ => apply lookup_insert_Some in H as [[? ?]|[? ?]]
  | H : delete _ _ !! _ = Some _ |- _ => apply lookup_delete_Some in H as [? ?]
  | H : _ ∈ _ ++ [_] |- _ => apply elem_of_app in H as [?|?%list_elem_of_singleton]
  | H : _ ∈ delete _ _ |- _ => eapply elem_of_sublist in H; [|apply sublist_delete]
  end.

(** ** Call identifiers and frames *)

Lemma FromBytes_ok (b : list byte) : length b = 16 → uuid.FromBytes b = (b, None).
Proof. intros H. unfold uuid.FromBytes. by rewrite decide_True. Qed.

Lemma FromBytes_err (b : list byte) :
  length b ≠ 16 → ∃ err, uuid.FromBytes b = (uuid.Nil, Some err).
Proof. intros H. unfold uuid.FromBytes. rewrite decide_False; eauto. Qed.

Lemma FromBytes_None (b callID : list byte) :
  uuid.FromBytes b = (callID, None) → callID = b ∧ length b = 16.
Proof. unfold uuid.FromBytes. case_decide; naive_solver. Qed.

Lemma ReadMsg_frame maxSize n req :
  (0 ≤ n ≤ maxSize)%Z → ReadMsg maxSize (InputFrame (mkFrame n (Some req))) = inr req.
Proof. intros Hn. unfold ReadMsg. cbn. rewrite bool_decide_eq_false_2; [done|lia]. Qed.


(** ** The cleanup loop *)

Lemma removeStreamHandlers_other (hs : list string) (d : Daemon) (q : string) :
  q ∉ hs →
  host (foldl removeStreamHandler d hs) !! q = host d !! q ∧
  registeredUnaryProtocols (foldl removeStreamHandler d hs) !! q =
    registeredUnaryProtocols d !! q.
Proof.
  revert d. induction hs as [|p hs IH]; intros d Hq; [done|].
  apply not_elem_of_cons in Hq as [Hne Hq]. simpl.
  destruct (IH (removeStreamHandler d p) Hq) as [-> ->]. simpl.
  by rewrite lookup_delete_ne, lookup_insert_ne.
Qed.

Lemma removeStreamHandlers_removed (hs : list string) (d : Daemon) (q : string) :
  q ∈ hs →
  host (foldl removeStreamHandler d hs) !! q = None ∧
  registeredUnaryProtocols (foldl removeStreamHandler d hs) !! q = Some false.
Proof.
  revert d. induction hs as [|p hs IH]; intros d Hq; [by apply elem_of_nil in Hq|].
  simpl. destruct (decide (q ∈ hs)) as [Hin|Hout]; [by apply IH|].
  apply elem_of_cons in Hq as [->|Hq]; [|done].
  destruct (removeStreamHandlers_other hs (removeStreamHandler d p) p Hout) as [-> ->].
  simpl. by rewrite lookup_delete_eq, lookup_insert_eq.
Qed.

Lemma removeStreamHandlers_frame (hs : list string) (d : Daemon) :
  cancelUnary (foldl removeStreamHandler d hs) = cancelUnary d ∧
  responseWaiters (foldl removeStreamHandler d hs) = responseWaiters d ∧
  cancelTerminateTimer (foldl removeStreamHandler d hs) = cancelTerminateTimer d ∧
  terminateOnce (foldl removeStreamHandler d hs) = terminateOnce d.
Proof.
  revert d. induction hs as [|p hs IH]; intros d; [done|].
  simpl. by destruct (IH (removeStreamHandler d p)) as (-> & -> & -> & ->).
Qed.

Lemma removeStreamHandlers_terminateWG (hs : list string) (d : Daemon) :
  terminateWG (foldl removeStreamHandler d hs) = terminateWG d.
Proof. revert d. induction hs as [|p hs IH]; intros d; [done|]. simpl. by rewrite IH. Qed.

Lemma sessions_size_alter (f : list string → list string) (cw : Writer)
    (m : gmap Writer (list string)) :
  size (alter f cw m) = size m.
Proof. by rewrite <- !size_dom, dom_alter_L. Qed.

(** ** Workers that do not depend on the host *)




Lemma callReturn_ended ctx t t' s resp w w0 :
  callWriter t' = callWriter t →
  callID t' = callID t →
  trace w = trace w0 →
  callEnded ctx t s resp w0 (callReturn ctx t' s (Some resp) w).
Proof.
  intros Hw Hi Htr. unfold callEnded, callReturn.
  destruct s; simpl; rewrite Htr, Hw, Hi;
    repeat split; try apply lookup_delete_eq; by rewrite ?app_nil_r.
Qed.

Lemma main_wellFormed idleTimeout maxSize : wellFormed (main idleTimeout maxSize).
Proof.
  unfold main. case_bool_decide; split; simpl; intros; simplify_map_eq; try set_solver; lia.
Qed.

Section Properties.

Variable IDFromBytes : list byte → string + PeerID.

(** ** Single steps *)


Lemma step_sessionRead cw input w hs :
  panicked (trace w) = false →
  sessions (runtime w) !! cw = Some hs →
  step IDFromBytes (SessionRead cw input) w = Some (sessionRead IDFromBytes cw input w).
Proof. intros Hp Hs. unfold step. by rewrite Hp, Hs. Qed.

Lemma sessionRead_dispatch cw input req w :
  clientReadMsg (daemon w) input = inr req →
  length (CallId req) = 16 →
  sessionRead IDFromBytes cw input w =
    match Message req with
    | Request_AddUnaryHandler proto => addUnaryHandlerWorker cw (CallId req) proto w
    | Request_CallUnary call => callUnaryWorker IDFromBytes cw (CallId req) req call w
    | Request_UnaryResponse _ => unaryResponseWorker cw req w
    | Request_Cancel => cancelWorker (CallId req) w
    | Request_NotSet => w
    end.
Proof. intros Hr Hl. unfold sessionRead. by rewrite Hr, (FromBytes_ok _ Hl). Qed.

Lemma step_inbound proto cw s remote input clientErr w :
  panicked (trace w) = false →
  host (daemon w) !! proto = Some cw →
  step IDFromBytes (InboundStream proto s remote input clientErr) w =
    Some (streamHandler cw s remote input clientErr w).
Proof. intros Hp Hh. unfold step. by rewrite Hp, Hh. Qed.





Lemma setPhase_calls ctx t ph w :
  calls (runtime (setPhase ctx t ph w)) !! ctx =
    Some (mkCallTask (callWriter t) (callID t) (callReq t) ph).
Proof. unfold setPhase. cbn. apply lookup_insert_eq. Qed.


(** ** Reachable states are well formed *)

Lemma step_wellFormed e w w' :
  step IDFromBytes e w = Some w' → wellFormed w → wellFormed w'.
Proof.
  intros Hstep [H1 H2 H3 H4 H5 H6 H7]. unfold step in Hstep.
  destruct (panicked (trace w)); [done|].
  destruct e; unfold_workers; repeat case_match; simplify_eq; simpl.
  all: try (by split).
  all: split; simpl; intros.
  all: try match goal with
       | H : context [foldl removeStreamHandler ?d ?l] |- _ =>
           destruct (removeStreamHandlers_frame l d) as (Hf1 & Hf2 & Hf3 & _);
           rewrite ?Hf1, ?Hf2, ?Hf3 in H; simpl in H
       end.
  all: split_updates; simplify_eq; simpl.
  all: try match goal with
       | H : uuid.FromBytes _ = (_, None) |- _ => apply FromBytes_None in H as [? ?]
       end; simplify_eq.
  all: repeat match goal with
       | H : _ ∈ ctxDone _ |- _ => learn (H1 _ H)
       | H : cancelUnary _ !! _ = Some _ |- _ => learn (H2 _ _ H)
       | H : calls _ !! _ = Some _ |- _ => learn (H3 _ _ H)
       | H : handlings _ !! _ = Some _ |- _ => learn (H4 _ _ H)
       | H : cancelTerminateTimer _ = Some _ |- _ => learn (H5 _ H)
       | H : responseWaiters _ !! _ = Some _ |- _ => learn (H6 _ _ H)
       | H : _ ∈ sends _ |- _ => learn (H7 _ H)
       end.
  all: try (by intuition (eauto with lia)).
  all: repeat match goal with
       | H : ∃ _, _ ∧ _ |- _ => destruct H as (? & ? & ?)
       | H : handlings _ !! _ = Some _ |- _ => learn (H4 _ _ H)
       end.
  all: try (by intuition (eauto with lia)).
  all: match goal with
       | |- ∃ _, delete ?a _ !! ?b = _ ∧ _ =>
           destruct (decide (a = b)); [naive_solver|rewrite lookup_delete_ne by done; naive_solver]
       | |- ∃ _, <[?a := _]> _ !! ?b = _ ∧ _ =>
           destruct (decide (a = b));
             [subst; rewrite ?lookup_insert_eq; naive_solver lia
             |rewrite lookup_insert_ne by done; naive_solver]
       end.
Qed.

Lemma run_wellFormed es w w' :
  run IDFromBytes es w = Some w' → wellFormed w → wellFormed w'.
Proof.
  revert w. induction es as [|e es IH]; intros w Hrun Hwf; simpl in Hrun; [by simplify_eq|].
  destruct (step IDFromBytes e w) as [w1|] eqn:Hstep; [|done].
  eauto using step_wellFormed.
Qed.

Lemma reachable_wellFormed idleTimeout maxSize es w :
  run IDFromBytes es (main idleTimeout maxSize) = Some w → wellFormed w.
Proof. intros Hrun. eapply run_wellFormed; [done|apply main_wellFormed]. Qed.

(** ** The watchdog along a run *)

Lemma step_watchdogView e w w' :
  step IDFromBytes e w = Some w' →
  isSessionAccepted e = false →
  watchdogView w' = watchdogView w.
Proof.
  intros Hstep He. unfold step in Hstep.
  destruct (panicked (trace w)); [done|].
  destruct e; try done; unfold_workers; unfold watchdogView;
    repeat case_match; simplify_eq; simpl; try done.
  match goal with
  | |- context [foldl removeStreamHandler ?d ?l] =>
      by destruct (removeStreamHandlers_frame l d) as (_ & _ & -> & ->)
  end.
Qed.

Lemma step_accepted_watchdog cw w w' :
  step IDFromBytes (SessionAccepted cw) w = Some w' →
  cancelTerminateTimer (daemon w') = cancelTerminateTimer (daemon w) ∧
  terminateOnce (daemon w') = true ∧
  awaitTerminationStarts (trace w') =
    (if terminateOnce (daemon w) then awaitTerminationStarts (trace w)
     else S (awaitTerminationStarts (trace w))) ∧
  terminateWG (daemon w') = (terminateWG (daemon w) + 1)%Z ∧
  (∀ k, cancelTerminateTimer (daemon w) = Some k → k ∈ ctxDone (runtime w')).
Proof.
  unfold step. destruct (panicked (trace w)); [done|].
  destruct (sessions (runtime w) !! cw); [done|]. intros [= <-].
  unfold sessionEnter, cancel.
  destruct (cancelTerminateTimer (daemon w)) as [k|] eqn:Hk; simpl;
    destruct (terminateOnce (daemon w)) eqn:Ho; simpl; rewrite ?Hk, ?Ho;
    repeat split; try done; intros ? [= <-]; set_solver.
Qed.

Lemma run_watchdog es w w' :
  run IDFromBytes es w = Some w' →
  awaitTerminationStarts (trace w) = (if terminateOnce (daemon w) then 1 else 0) →
  cancelTerminateTimer (daemon w') = cancelTerminateTimer (daemon w) ∧
  terminateOnce (daemon w') = terminateOnce (daemon w) || existsb isSessionAccepted es ∧
  awaitTerminationStarts (trace w') = (if terminateOnce (daemon w') then 1 else 0).
Proof.
  revert w. induction es as [|e es IH]; intros w Hrun Hinv; simpl in Hrun.
  { injection Hrun as <-. by rewrite orb_false_r. }
  destruct (step IDFromBytes e w) as [w1|] eqn:Hstep; [|done].
  destruct (isSessionAccepted e) eqn:He.
  - destruct e; try done.
    destruct (step_accepted_watchdog _ _ _ Hstep) as (Ht & Ho & Hs & _).
    destruct (IH w1 Hrun) as (Ht' & Ho' & Hs').
    { rewrite Hs, Ho, Hinv. by destruct (terminateOnce (daemon w)). }
    rewrite Ht', Ht, Ho', Ho. simpl. rewrite orb_true_r.
    repeat split; try done. by rewrite Hs', Ho', Ho.
  - pose proof (step_watchdogView _ _ _ Hstep He) as Hv.
    unfold watchdogView in Hv. injection Hv as Ht Ho Hs.
    destruct (IH w1 Hrun) as (Ht' & Ho' & Hs'); [by rewrite Hs, Ho|].
    rewrite Ht', Ht, Ho', Ho. simpl. rewrite He. simpl. repeat split; try done.
    by rewrite Hs', Ho', Ho.
Qed.

(** ** Composite steps of the round trip *)


(** The start of the handler on an inbound stream whose first frame is a
    call. *)
Lemma inbound_step proto cw s remote n callID call w :
  panicked (trace w) = false →
  host (daemon w) !! proto = Some cw →
  (0 ≤ n ≤ MessageSizeMax)%Z →
  length callID = 16 →
  ∃ w',
    step IDFromBytes
      (InboundStream proto s remote
         (InputFrame (mkFrame n (Some (mkRequest callID (Request_CallUnary call))))) None) w
      = Some w' ∧
    panicked (trace w') = false ∧
    sessions (runtime w') = sessions (runtime w) ∧
    persistentConnMsgMaxSize (daemon w') = persistentConnMsgMaxSize (daemon w) ∧
    responseWaiters (daemon w') !! callID = Some (nextId (runtime w)) ∧
    handlings (runtime w') !! nextId (runtime w) =
      Some (mkHandling cw callID s (S (nextId (runtime w))) HSelecting) ∧
    clientFrames (trace w') =
      clientFrames (trace w) ++
        [(cw, {| RCallId := callID;
                 RMessage := Response_RequestHandling
                               (mkCallUnaryRequest remote (Proto call) (Payload call)) |})].
Proof.
  intros Hp Hh Hn Hl. rewrite (step_inbound _ _ _ _ _ _ _ Hp Hh).
  unfold streamHandler. rewrite (ReadMsg_frame _ _ _ Hn).
  cbn [GetCallUnary Message CallId]. rewrite (FromBytes_ok _ Hl).
  eexists. split; [reflexivity|]. cbn.
  repeat split; try done; apply lookup_insert_eq.
Qed.

(** A [UnaryResponse] for a call id that has an entry: the goroutine blocks
    in its send. *)
Lemma send_step cw input req rc hs w :
  panicked (trace w) = false →
  sessions (runtime w) !! cw = Some hs →
  clientReadMsg (daemon w) input = inr req →
  length (CallId req) = 16 →
  (∃ r, Message req = Request_UnaryResponse r) →
  responseWaiters (daemon w) !! CallId req = Some rc →
  step IDFromBytes (SessionRead cw input) w =
    Some (on_runtime (λ r, set_sends (sends r ++ [mkSend rc cw req]) r) w).
Proof.
  intros Hp Hs Hr Hl [r Hm] Hw.
  rewrite (step_sessionRead _ _ _ hs), (sessionRead_dispatch _ _ _ _ Hr), Hm by done.
  unfold unaryResponseWorker, doSendReponseToRemote. rewrite (FromBytes_ok _ Hl).
  cbv beta iota. by rewrite Hw.
Qed.


Lemma setHandlingPhase_handlings rc h ph w :
  handlings (runtime (setHandlingPhase rc h ph w)) !! rc =
    Some (mkHandling (handlingWriter h) (handlingCallID h) (handlingStream h)
            (handlingCtx h) ph).
Proof. unfold setHandlingPhase. cbn. apply lookup_insert_eq. Qed.





(** ** The session counter along a run *)

Lemma step_terminateWG e w w' :
  step IDFromBytes e w = Some w' →
  terminateWG (daemon w) = Z.of_nat (size (sessions (runtime w))) →
  terminateWG (daemon w') = Z.of_nat (size (sessions (runtime w'))).
Proof.
  intros Hstep Hinv. unfold step in Hstep.
  destruct (panicked (trace w)); [done|].
  destruct e; unfold_workers; repeat case_match; simplify_eq; simpl; try done.
  all: rewrite ?removeStreamHandlers_terminateWG; simpl.
  all: rewrite ?map_size_insert_None, ?map_size_delete_Some, ?sessions_size_alter by eauto.
  all: try lia.
  match goal with
  | H : sessions _ !! _ = Some _ |- _ =>
      pose proof (map_size_ne_0_lookup_2 _ _ (mk_is_Some _ _ H))
  end.
  lia.
Qed.

Lemma run_terminateWG es w w' :
  run IDFromBytes es w = Some w' →
  terminateWG (daemon w) = Z.of_nat (size (sessions (runtime w))) →
  terminateWG (daemon w') = Z.of_nat (size (sessions (runtime w'))).
Proof.
  revert w. induction es as [|e es IH]; intros w Hrun Hinv; simpl in Hrun; [by simplify_eq|].
  destruct (step IDFromBytes e w) as [w1|] eqn:Hstep; [|done].
  eauto using step_terminateWG.
Qed.

(** ** Calls whose token has fired *)





(** ** Handlers that have left their [select] *)

Lemma step_nextId e w w' :
  step IDFromBytes e w = Some w' → nextId (runtime w) ≤ nextId (runtime w').
Proof.
  intros Hstep. unfold step in Hstep. destruct (panicked (trace w)); [done|].
  destruct e; unfold_workers; repeat case_match; simplify_eq; simpl; lia.
Qed.

(** A handler that has left its [select] does not come back to it, and its
    channel is not given to another handler. *)
Lemma step_pastSelect e rc w w' :
  rc < nextId (runtime w) →
  pastSelect rc w →
  step IDFromBytes e w = Some w' →
  pastSelect rc w'.
Proof.
  intros Hlt Hps Hstep. unfold step in Hstep. destruct (panicked (trace w)); [done|].
  unfold pastSelect in *.
  destruct e; unfold_workers; repeat case_match; simplify_eq; simpl; try done.
  all: intros h' Hh'; split_updates; simplify_eq; simpl; try done; try lia; eauto.
Qed.

Lemma pastSelect_neverReceives rc w :
  rc < nextId (runtime w) →
  pastSelect rc w →
  neverReceives IDFromBytes rc w.
Proof.
  intros Hlt Hps es. revert w Hlt Hps.
  induction es as [|e es IH]; intros w Hlt Hps w' k snd Hrun Hk Hrc; cbn in Hrun.
  - simplify_eq. unfold step, streamHandlerResponse.
    destruct (panicked (trace w')); [done|]. rewrite Hk.
    destruct (handlings (runtime w') !! sendChan snd) as [h|] eqn:Hh; [|done].
    specialize (Hps h Hh). by destruct (handlingPhase h).
  - destruct (step IDFromBytes e w) as [w1|] eqn:Hstep; [|done].
    apply (IH w1) with (snd := snd); try done.
    + pose proof (step_nextId _ _ _ Hstep). lia.
    + by eapply step_pastSelect.
Qed.

(** * Specified behaviour *)






(** C6, as amended.  A request whose call id does not parse leaves
    everything as it was.  Read by a session, whatever its variant,
    [CallUnary] included, it is skipped: no response is written, nothing
    changes, and the session goes on.  Read as the first frame of an inbound
    stream, with the [CallUnary] variant, it makes the handler return: the
    stream is closed and nothing else happens. *)
Theorem malformed_call_id_dropped cw input req hs w :
  panicked (trace w) = false →
  length (CallId req) ≠ 16 →
  (sessions (runtime w) !! cw = Some hs →
   clientReadMsg (daemon w) input = inr req →
   step IDFromBytes (SessionRead cw input) w = Some w) ∧
  (∀ proto s remote clientErr call,
     host (daemon w) !! proto = Some cw →
     ReadMsg MessageSizeMax input = inr req →
     Message req = Request_CallUnary call →
     step IDFromBytes (InboundStream proto s remote input clientErr) w = Some (StreamClose s w)).
Proof.
  intros Hp Hl. destruct (FromBytes_err _ Hl) as [e He]. split.
  - intros Hs Hr. rewrite (step_sessionRead _ _ _ hs) by done.
    unfold sessionRead. by rewrite Hr, He.
  - intros proto s remote clientErr call Hh Hr Hm.
    rewrite (step_inbound _ _ _ _ _ _ _ Hp Hh). unfold streamHandler, GetCallUnary.
    by rewrite Hr, Hm, He.
Qed.

(** C7.  A session reads a [Cancel] request.  Nothing is written, to the
    client or to a stream, and the daemon's fields stay as they are.  When
    [cancelUnary] has no entry for the call id the whole state is unchanged;
    when it has one, the only change is that the stored token has fired. *)
Theorem cancel_writes_nothing cw input req hs w :
  panicked (trace w) = false →
  sessions (runtime w) !! cw = Some hs →
  clientReadMsg (daemon w) input = inr req →
  length (CallId req) = 16 →
  Message req = Request_Cancel →
  ∃ w',
    step IDFromBytes (SessionRead cw input) w = Some w' ∧
    trace w' = trace w ∧
    daemon w' = daemon w ∧
    match cancelUnary (daemon w) !! CallId req with
    | None => w' = w
    | Some cf => w' = cancel cf w ∧ ctxErr cf w' = true
    end.
Proof.
  intros Hp Hs Hr Hl Hm.
  rewrite (step_sessionRead _ _ _ hs), (sessionRead_dispatch _ _ req), Hm by done.
  eexists. split; [reflexivity|]. unfold cancelWorker.
  destruct (cancelUnary (daemon w) !! CallId req) as [cf|]; [|done].
  repeat split. unfold ctxErr. simpl. apply bool_decide_eq_true. set_solver.
Qed.

(** C9.  Along any run from [main]: [awaitTermination] has been started at
    most once, and once exactly when a session has been accepted; the
    termination timer is armed exactly when [idleTimeout] is positive; the
    counter of [terminateWG] is the number of live sessions; and accepting a
    session when that counter is zero makes it one and fires the cancel
    function of the timer, if there is one. *)
Theorem watchdog_once_and_gated idleTimeout maxSize es w :
  run IDFromBytes es (main idleTimeout maxSize) = Some w →
  awaitTerminationStarts (trace w) ≤ 1 ∧
  (awaitTerminationStarts (trace w) = 1 ↔ existsb isSessionAccepted es = true) ∧
  (is_Some (cancelTerminateTimer (daemon w)) ↔ (idleTimeout > 0)%Z) ∧
  terminateWG (daemon w) = Z.of_nat (size (sessions (runtime w))) ∧
  (∀ cw w',
     step IDFromBytes (SessionAccepted cw) w = Some w' →
     terminateWG (daemon w) = 0%Z →
     terminateWG (daemon w') = 1%Z ∧
     ∀ timer, cancelTerminateTimer (daemon w) = Some timer → ctxErr timer w' = true).
Proof.
  intros Hrun.
  assert (Hmain : terminateOnce (daemon (main idleTimeout maxSize)) = false ∧
                  awaitTerminationStarts (trace (main idleTimeout maxSize)) = 0 ∧
                  (is_Some (cancelTerminateTimer (daemon (main idleTimeout maxSize)))
                   ↔ (idleTimeout > 0)%Z) ∧
                  terminateWG (daemon (main idleTimeout maxSize)) =
                    Z.of_nat (size (sessions (runtime (main idleTimeout maxSize))))).
  { unfold main. case_bool_decide as Hpos; simpl; (split; [done|]); (split; [done|]).
    - split; [|done]. split; [done|]. intros _. by eexists.
    - split; [|done]. split; [by intros [? ?]|done]. }
  destruct Hmain as (Ho0 & Hs0 & Harm & Hwg0).
  destruct (run_watchdog _ _ _ Hrun) as (Ht & Ho & Hs); [by rewrite Hs0, Ho0|].
  rewrite Ho0 in Ho. simpl in Ho. rewrite Hs, Ho.
  split; [destruct (existsb _ _); lia|].
  split; [destruct (existsb _ _); split; (done || lia)|].
  split; [by rewrite Ht|].
  split; [by apply (run_terminateWG _ _ _ Hrun)|].
  intros cw w' Hstep Hz.
  destruct (step_accepted_watchdog _ _ _ Hstep) as (_ & _ & _ & Hwg & Hc).
  split; [lia|]. intros timer Hk. unfold ctxErr. apply bool_decide_eq_true. eauto.
Qed.

(** C10.  The handler that the host runs on an inbound stream of a
    registered protocol panics exactly when the first frame is read and
    unmarshalled but is not a [CallUnary]: the nil pointer of
    [GetCallUnary] is dereferenced for the peer field, whatever the call id
    is, valid or not.  After the panic the process does nothing more. *)
Theorem streamHandler_panics_unless_CallUnary proto cw s remote input clientErr w :
  panicked (trace w) = false →
  host (daemon w) !! proto = Some cw →
  ∃ w',
    step IDFromBytes (InboundStream proto s remote input clientErr) w = Some w' ∧
    (panicked (trace w') = true ↔
       ∃ req, ReadMsg MessageSizeMax input = inr req ∧ GetCallUnary req = None) ∧
    (panicked (trace w') = true → ∀ e, step IDFromBytes e w' = None).
Proof.
  intros Hp Hh. rewrite (step_inbound _ _ _ _ _ _ _ Hp Hh). eexists. split; [reflexivity|].
  split; [|intros Hpan e; unfold step; by rewrite Hpan].
  unfold streamHandler.
  destruct (ReadMsg MessageSizeMax input) as [err|req] eqn:Hr.
  { simpl. rewrite Hp. split; [done|]. by intros (? & ? & ?). }
  destruct (GetCallUnary req) as [call|] eqn:Hc.
  2:{ simpl. split; [|done]. intros _. by exists req. }
  assert (∀ w1, panicked (trace w1) = false →
    ¬ (panicked (trace w1) = true)) as Hno by (intros ? ->; done).
  split; [|intros (req' & [= <-] & ?); congruence].
  intros Hpan. exfalso. revert Hpan.
  destruct (uuid.FromBytes (CallId req)) as [callID [e|]]; [by apply Hno|].
  destruct clientErr; by apply Hno.
Qed.

End Properties.

(** * Examples *)






(** C6, at sample values: a call whose id has three bytes, read by the
    session and read from an inbound stream. *)
Lemma malformed_call_id_dropped_witness :
  step Sample.IDFromBytes (SessionRead 0 (Sample.frame Sample.shortIdCall)) Sample.registered
    = Some Sample.registered ∧
  step Sample.IDFromBytes
    (InboundStream "/p/1" 1 Sample.peerB (Sample.frame Sample.shortIdCall) None)
    Sample.registered = Some (StreamClose 1 Sample.registered).
Proof.
  destruct (malformed_call_id_dropped Sample.IDFromBytes 0 (Sample.frame Sample.shortIdCall)
              Sample.shortIdCall ["/p/1"] Sample.registered) as [Hsession Hremote].
  - vm_compute; reflexivity.
  - vm_compute. discriminate.
  - split.
    + apply Hsession; vm_compute; reflexivity.
    + apply (Hremote "/p/1" 1 Sample.peerB None
               (mkCallUnaryRequest Sample.peerA "/p/1" [x07])); vm_compute; reflexivity.
Defined.

(** C7, at sample values: a [Cancel] for the call in flight. *)
Lemma cancel_writes_nothing_witness :
  ∃ w',
    step Sample.IDFromBytes (SessionRead 0 (Sample.frame Sample.cancelCall)) Sample.inCall
      = Some w' ∧
    trace w' = trace Sample.inCall ∧
    daemon w' = daemon Sample.inCall ∧
    match cancelUnary (daemon Sample.inCall) !! Sample.c with
    | None => w' = Sample.inCall
    | Some cf => w' = cancel cf Sample.inCall ∧ ctxErr cf w' = true
    end.
Proof.
  apply (cancel_writes_nothing Sample.IDFromBytes 0 (Sample.frame Sample.cancelCall)
           Sample.cancelCall [] Sample.inCall).
  - vm_compute; reflexivity.
  - vm_compute; reflexivity.
  - vm_compute; reflexivity.
  - reflexivity.
  - reflexivity.
Defined.

(** C9, at sample values: an idle timeout of one second; the first session
    finds the counter at zero and the timer pending. *)
Lemma watchdog_once_and_gated_witness :
  ctxErr 0 (main 1000000000 4194304) = false ∧
  awaitTerminationStarts (trace (main 1000000000 4194304)) ≤ 1 ∧
  cancelTerminateTimer (daemon (main 1000000000 4194304)) = Some 0 ∧
  terminateWG (daemon (sessionEnter 0 (main 1000000000 4194304))) = 1%Z ∧
  ctxErr 0 (sessionEnter 0 (main 1000000000 4194304)) = true.
Proof.
  destruct (watchdog_once_and_gated Sample.IDFromBytes 1000000000 4194304 []
              (main 1000000000 4194304)) as (Hmost & _ & _ & _ & Haccept).
  - reflexivity.
  - destruct (Haccept 0 (sessionEnter 0 (main 1000000000 4194304))) as [Hone Hfired].
    + vm_compute; reflexivity.
    + reflexivity.
    + split; [vm_compute; reflexivity|]. split; [exact Hmost|].
      split; [reflexivity|]. split; [exact Hone|]. apply Hfired. reflexivity.
Defined.

(** C10, at sample values: a [Cancel] as the first frame of an inbound stream. *)
Lemma streamHandler_panics_unless_CallUnary_witness :
  ∃ w',
    step Sample.IDFromBytes
      (InboundStream "/p/1" 1 Sample.peerB (Sample.frame Sample.cancelCall) None)
      Sample.registered = Some w' ∧
    (panicked (trace w') = true ↔
       ∃ req, ReadMsg MessageSizeMax (Sample.frame Sample.cancelCall) = inr req ∧
              GetCallUnary req = None) ∧
    (panicked (trace w') = true → ∀ e, step Sample.IDFromBytes e w' = None).
Proof.
  apply (streamHandler_panics_unless_CallUnary Sample.IDFromBytes "/p/1" 0 1 Sample.peerB
           (Sample.frame Sample.cancelCall) None Sample.registered).
  - vm_compute; reflexivity.
  - vm_compute; reflexivity.
Defined.



(** The entry of a call outlives the [select] of its handler.  The answer
    of the client is read while the handler, which took the read failure,
    writes its [Cancel]: the entry is found, the goroutine of the answer
    blocks in its send and the handler cannot take the request, before it
    returns or after; the client has been written the [Cancel] and no reply
    to its answer. *)
Example answer_in_cancel_window :
  (sends ∘ runtime <$> run Sample.IDFromBytes MoreSamples.answeredLate (main 0 4194304))
    = Some [mkSend 0 0 Sample.answer] ∧
  run Sample.IDFromBytes (MoreSamples.answeredLate ++ [InboundResponseReceived 0])
    (main 0 4194304) = None ∧
  ((λ w, (framesOf 0 w, sends (runtime w))) <$>
     run Sample.IDFromBytes (MoreSamples.answeredLate ++ [InboundWriteReturned 0 None])
       (main 0 4194304))
    = Some ([okUnaryCallResponse Sample.c0;
             {| RCallId := Sample.c;
                RMessage := Response_RequestHandling
                              (mkCallUnaryRequest Sample.peerB "/p/1" [x07]) |};
             okCancelled Sample.c],
            [mkSend 0 0 Sample.answer]) ∧
  run Sample.IDFromBytes
    (MoreSamples.answeredLate ++ [InboundWriteReturned 0 None; InboundResponseReceived 0])
    (main 0 4194304) = None.
Proof. vm_compute. repeat split; congruence. Qed.

(** C6 does not hold as stated.  A [CallUnary] request whose call id has three
    bytes is not answered with a [DaemonError]: the session writes nothing
    and nothing changes. *)
Lemma malformed_CallUnary_gets_no_response :
  length (CallId Sample.shortIdCall) ≠ 16 ∧
  step Sample.IDFromBytes (SessionRead 0 (Sample.frame Sample.shortIdCall)) Sample.oneSession
    = Some Sample.oneSession ∧
  framesOf 0 Sample.oneSession = [].
Proof. vm_compute. repeat split; congruence. Qed.

(** C8, the code at a failing input.  The daemon is started with a bound of
    1024 bytes.  A frame that announces 2000 bytes is refused on the client
    duplex, where it ends the session; the same frame on an inbound P2P
    stream is accepted and the call is handed to the client, and a response
    frame of that length is accepted by the exchange of an outbound call:
    on P2P streams the bound is [network.MessageSizeMax], whatever was
    configured. *)
Theorem remote_frames_ignore_configured_bound :
  persistentConnMsgMaxSize (daemon (main 0 1024)) = 1024%Z ∧
  (sessions ∘ runtime <$>
     run Sample.IDFromBytes
       (Sample.registering ++ [SessionRead 0 (Sample.frame2000 Sample.call)]) (main 0 1024))
    = Some ∅ ∧
  (framesOf 0 <$>
     run Sample.IDFromBytes
       (Sample.registering ++
        [InboundStream "/p/1" 1 Sample.peerB (Sample.frame2000 Sample.call) None])
       (main 0 1024))
    = Some [okUnaryCallResponse Sample.c0;
            {| RCallId := Sample.c;
               RMessage := Response_RequestHandling
                             (mkCallUnaryRequest Sample.peerB "/p/1" [x07]) |}] ∧
  (framesOf 0 <$>
     run Sample.IDFromBytes
       (Sample.calling ++
        [StreamReadReturned 0 (Sample.frame2000 Sample.answer); SelectResponse 0])
       (main 0 1024))
    = Some [{| RCallId := Sample.c;
               RMessage := Response_CallUnaryResponse (Some (Result_Payload [x09])) |}].
Proof. vm_compute. repeat split; congruence. Qed.

(** C10, at a failing input: the [Cancel] frame makes the process panic. *)
Example cancel_frame_panics :
  (panicked ∘ trace <$>
     step Sample.IDFromBytes
       (InboundStream "/p/1" 1 Sample.peerB (Sample.frame Sample.cancelCall) None)
       Sample.registered) = Some true.
Proof. vm_compute. reflexivity. Qed.

(** What the amended C3 leaves open.  With the response offered and the
    token fired, both cases of the worker's [select] are ready: it may reply
    [CallUnaryResponse] or [Cancel{}].  Once the exchange has taken
    [ctx.Done()] and closed its channel, the worker that takes the channel
    receives the nil response: no frame is written, [WriteMsg] is called
    with nil. *)
Example select_after_cancel :
  (framesOf 0 <$>
     run Sample.IDFromBytes (Sample.cancelledOffer ++ [SelectResponse 0]) (main 0 4194304))
    = Some [{| RCallId := Sample.c;
               RMessage := Response_CallUnaryResponse (Some (Result_Payload [x09])) |}] ∧
  (framesOf 0 <$>
     run Sample.IDFromBytes (Sample.cancelledOffer ++ [SelectDone 0]) (main 0 4194304))
    = Some [okCancelled Sample.c] ∧
  ((λ w, (framesOf 0 w, nilWrites (trace w))) <$>
     run Sample.IDFromBytes (Sample.cancelledOffer ++ [ExchangeDone 0; SelectResponse 0])
       (main 0 4194304))
    = Some ([], [0]).
Proof. vm_compute. repeat split; congruence. Qed.

(** * Further properties *)

(** ** The start-up checks of [main] *)

Lemma splitComma_nonempty s : 0 < length (splitComma s).
Proof.
  induction s as [|ch s IH]; simpl; [lia|].
  destruct (Ascii.eqb ch ","); simpl; [lia|].
  destruct (splitComma s); simpl; lia.
Qed.

Lemma concat_cons_cons (sep x y : string) (l : list string) :
  String.concat sep (x :: y :: l) = x +:+ sep +:+ String.concat sep (y :: l).
Proof. done. Qed.

Lemma splitComma_concat s : String.concat "," (splitComma s) = s.
Proof.
  induction s as [|ch s IH]; [done|]. cbn [splitComma].
  pose proof (splitComma_nonempty s) as Hlen.
  destruct (splitComma s) as [|piece pieces] eqn:Hs; [simpl in Hlen; lia|].
  destruct (Ascii.eqb_spec ch ","%char) as [->|Hne].
  - by rewrite concat_cons_cons, IH.
  - destruct pieces as [|piece' pieces].
    + simpl in *. by rewrite IH.
    + rewrite concat_cons_cons in *. by rewrite <- IH.
Qed.

(** X12.  The relay checks let the start-up go on exactly when trusted
    relays come with both [-relay] and [-autoRelay], and [-autoRelay]
    comes with [-relayDiscovery] or with trusted relays.  The relays handed on are the pieces
    of the flag between commas, at least one when the flag is not empty. *)
Theorem relayChecks_pass (f : RelayFlags) (trustedRelays : list string) :
  relayChecks f = inr trustedRelays ↔
    (trustedRelaysRaw f = EmptyString ∨ (relayEnabled f = true ∧ autoRelay f = true)) ∧
    (autoRelay f = true → relayDiscovery f = true ∨ trustedRelaysRaw f ≠ EmptyString) ∧
    trustedRelays = (if String.eqb (trustedRelaysRaw f) EmptyString then []
                     else splitComma (trustedRelaysRaw f)) ∧
    (trustedRelaysRaw f ≠ EmptyString → 0 < length trustedRelays).
Proof.
  unfold relayChecks. destruct f as [en au di raw]. cbn [relayEnabled autoRelay relayDiscovery trustedRelaysRaw].
  destruct (String.eqb_spec raw EmptyString) as [->|Hraw]; cbn [negb andb].
  - destruct au, di; cbn; split; try (intros [= <-]); try naive_solver.
  - pose proof (splitComma_nonempty raw) as Hlen.
    assert (H0 : (0 <? length (splitComma raw)) = true) by (by apply Nat.ltb_lt).
    assert (H1 : (length (splitComma raw) =? 0) = false) by (apply Nat.eqb_neq; lia).
    rewrite H0, H1. destruct en, au, di; cbn; split; try (intros [= <-]); try naive_solver.
Qed.

(** ** The port scan of [pprofHTTP] *)

Lemma pprofScan_spec listen n i :
  let tried := pprofScan listen n i in
  length tried ≤ n ∧
  (∀ j, j < length tried → tried !! j = Some (i + Z.of_nat j)%Z) ∧
  (∀ j, S j < length tried → listen (i + Z.of_nat j)%Z = false) ∧
  (length tried < n → ∃ j, length tried = S j ∧ listen (i + Z.of_nat j)%Z = true) ∧
  (length tried = n → ∀ j, S j < n → listen (i + Z.of_nat j)%Z = false).
Proof.
  revert i. induction n as [|n IH]; intros i; cbn [pprofScan].
  { cbn. repeat split; intros; lia. }
  destruct (listen i) eqn:Hi.
  - cbn [length lookup]. split; [lia|]. split.
    { intros [|j] Hj; [|lia]. cbn. by rewrite Z.add_0_r. }
    split; [intros j Hj; lia|]. split.
    { intros _. exists 0. by rewrite Z.add_0_r. }
    intros Hn j Hj. lia.
  - destruct (IH (i + 1)%Z) as (Hlen & Hnth & Hfail & Hlast & Hall). cbn [length].
    split; [lia|]. split.
    { intros [|j] Hj; cbn; [by rewrite Z.add_0_r|].
      rewrite Hnth by lia. f_equal. lia. }
    split.
    { intros [|j] Hj; [by rewrite Z.add_0_r|].
      replace (i + Z.of_nat (S j))%Z with (i + 1 + Z.of_nat j)%Z by lia. apply Hfail. lia. }
    split.
    { intros Hlt. destruct Hlast as (j & Hj & Hserved); [lia|].
      exists (S j). split; [lia|].
      by replace (i + Z.of_nat (S j))%Z with (i + 1 + Z.of_nat j)%Z by lia. }
    intros Hn [|j] Hj; [by rewrite Z.add_0_r|].
    replace (i + Z.of_nat (S j))%Z with (i + 1 + Z.of_nat j)%Z by lia. apply Hall; lia.
Qed.

(** X13.  Without a port from the user, [pprofHTTP] tries the ports 6060, 6061, ...
    in turn and goes no further than 7080; it stops at the first port on
    which the server runs, so every port tried before the last one failed,
    and when it stops before 7080 the server ran on the last port tried. *)
Theorem pprofHTTP_scan (listen : Z → bool) (port : Z) :
  (port ≤ 0)%Z →
  (∀ j, j < length (pprofHTTP listen port) →
        pprofHTTP listen port !! j = Some (6060 + Z.of_nat j)%Z) ∧
  (∀ p, p ∈ pprofHTTP listen port → 6060 ≤ p ≤ 7080)%Z ∧
  (∀ j, S j < length (pprofHTTP listen port) → listen (6060 + Z.of_nat j)%Z = false) ∧
  (∀ p, (6060 ≤ p ≤ 7080)%Z → listen p = true →
     ∃ q, last (pprofHTTP listen port) = Some q ∧ (q ≤ p)%Z ∧ listen q = true).
Proof.
  intros Hport. unfold pprofHTTP.
  assert (Hnot : (0 <? port)%Z = false) by (apply Z.ltb_ge; lia).
  rewrite Hnot.
  destruct (pprofScan_spec listen 1021 6060) as (Hlen & Hnth & Hfail & Hlast & Hall).
  cbv zeta in *. set (tried := pprofScan listen 1021 6060) in *.
  split; [exact Hnth|]. split.
  { intros p [j Hj]%list_elem_of_lookup.
    pose proof (lookup_lt_Some _ _ _ Hj) as Hlt. rewrite Hnth in Hj by done.
    injection Hj as <-. lia. }
  split; [exact Hfail|].
  intros p Hp Hserved.
  destruct (decide (length tried < 1021)) as [Hshort|Hfull].
  - destruct Hlast as (j & Hj & Hq); [done|].
    exists (6060 + Z.of_nat j)%Z. split.
    + rewrite last_lookup, Hj. apply Hnth. lia.
    + split; [|done]. destruct (decide (6060 + Z.of_nat j ≤ p)%Z) as [|Hgt]; [done|].
      exfalso. assert (Hf : listen (6060 + Z.of_nat (Z.to_nat (p - 6060)))%Z = false)
        by (apply Hfail; lia).
      replace (6060 + Z.of_nat (Z.to_nat (p - 6060)))%Z with p in Hf by lia. congruence.
  - assert (Hn : length tried = 1021) by lia.
    exists 7080%Z. split.
    + rewrite last_lookup, Hn. by rewrite Hnth by lia.
    + destruct (decide (p = 7080%Z)) as [->|Hne]; [done|].
      exfalso. assert (Hf : listen (6060 + Z.of_nat (Z.to_nat (p - 6060)))%Z = false)
        by (apply Hall; [done|lia]).
      replace (6060 + Z.of_nat (Z.to_nat (p - 6060)))%Z with p in Hf by lia. congruence.
Qed.

(** ** The address flags of [main] *)

Lemma parseEach_inr {M} (NewMultiaddr : string → string + M) pieces mas :
  parseEach NewMultiaddr pieces = inr mas ↔
  Forall2 (λ s ma, NewMultiaddr s = inr ma) pieces mas.
Proof.
  revert mas. induction pieces as [|s pieces IH]; intros mas; cbn.
  { split; [intros [= <-]; constructor|by intros ->%Forall2_nil_inv_l]. }
  split.
  - destruct (NewMultiaddr s) as [err|ma] eqn:Hs; [done|].
    destruct (parseEach NewMultiaddr pieces) as [err|mas'] eqn:Hrest; [done|].
    intros [= <-]. constructor; [done|]. by apply IH.
  - intros (ma & mas' & Hs & Hrest & ->)%Forall2_cons_inv_l.
    rewrite Hs. apply IH in Hrest. by rewrite Hrest.
Qed.

Lemma parseEach_inl {M} (NewMultiaddr : string → string + M) pieces err :
  parseEach NewMultiaddr pieces = inl err ↔
  ∃ i s, pieces !! i = Some s ∧ NewMultiaddr s = inl err ∧
         ∀ j s', j < i → pieces !! j = Some s' → ∃ ma, NewMultiaddr s' = inr ma.
Proof.
  revert err. induction pieces as [|s pieces IH]; intros err; cbn.
  { split; [done|]. by intros (i & s & ? & _). }
  destruct (NewMultiaddr s) as [err0|ma] eqn:Hs.
  - split.
    + intros [= <-]. exists 0, s. split; [done|]. split; [done|]. intros; lia.
    + intros ([|i] & s' & Hi & Herr & Hbefore).
      * cbn in Hi. congruence.
      * destruct (Hbefore 0 s) as [ma Hma]; [lia|done|]. congruence.
  - destruct (parseEach NewMultiaddr pieces) as [err'|mas] eqn:Hrest.
    + split.
      * intros [= <-]. destruct (proj1 (IH err') eq_refl) as (i & s' & Hi & Herr & Hbefore).
        exists (S i), s'. split; [done|]. split; [done|].
        intros [|j] s'' Hj Hl; [cbn in Hl; simplify_eq; eauto|].
        apply (Hbefore j); [lia|done].
      * intros ([|i] & s' & Hi & Herr & Hbefore); [cbn in Hi; congruence|].
        f_equal. assert (inl err' = (inl err : string + list M)) as [= ->]; [|done].
        apply IH. exists i, s'. split; [done|]. split; [done|].
        intros j s'' Hj Hl. apply (Hbefore (S j)); [lia|done].
    + split; [done|].
      intros ([|i] & s' & Hi & Herr & Hbefore); [cbn in Hi; congruence|].
      assert (inr mas = (inl err : string + list M)); [|done].
      apply IH. exists i, s'. split; [done|]. split; [done|].
      intros j s'' Hj Hl. apply (Hbefore (S j)); [lia|done].
Qed.

(** X14.  An address flag that is not empty ([-hostAddrs],
    [-announceAddrs], [-bootstrapPeers]) is cut at its commas, so that
    joining the pieces with commas gives the flag back.  The start-up goes
    on exactly when every piece parses, and the addresses then are the
    parsed pieces, one for each piece and in the order of the flag, in
    place of the configured ones, and there is at least one; it stops with
    the error of the first piece that does not parse. *)
Theorem parseAddrs_all_or_nothing {M} (NewMultiaddr : string → string + M) flag configured :
  flag ≠ EmptyString →
  String.concat "," (splitComma flag) = flag ∧
  (∀ addrs, parseAddrs NewMultiaddr flag configured = inr addrs ↔
     Forall2 (λ s ma, NewMultiaddr s = inr ma) (splitComma flag) addrs) ∧
  (∀ addrs, parseAddrs NewMultiaddr flag configured = inr addrs → 0 < length addrs) ∧
  (∀ err, parseAddrs NewMultiaddr flag configured = inl err ↔
     ∃ i s, splitComma flag !! i = Some s ∧ NewMultiaddr s = inl err ∧
            ∀ j s', j < i → splitComma flag !! j = Some s' → ∃ ma, NewMultiaddr s' = inr ma).
Proof.
  intros Hflag. unfold parseAddrs.
  destruct (String.eqb_spec flag EmptyString) as [->|_]; [done|].
  split; [apply splitComma_concat|]. split; [intros; apply parseEach_inr|].
  split; [|intros; apply parseEach_inl].
  intros addrs Hlen%parseEach_inr%Forall2_length.
  pose proof (splitComma_nonempty flag). lia.
Qed.

(** ** Invariants of the registries *)

Lemma removeStreamHandlers_consistent (hs : list string) (d : Daemon) :
  (∀ p, is_Some (host d !! p) ↔ registeredUnaryProtocols d !! p = Some true) →
  ∀ p, is_Some (host (foldl removeStreamHandler d hs) !! p) ↔
       registeredUnaryProtocols (foldl removeStreamHandler d hs) !! p = Some true.
Proof.
  intros Hd p. destruct (decide (p ∈ hs)) as [Hin|Hout].
  - destruct (removeStreamHandlers_removed hs d p Hin) as [-> ->].
    split; [by intros [? ?]|done].
  - destruct (removeStreamHandlers_other hs d p Hout) as [-> ->]. apply Hd.
Qed.

Section FurtherProperties.
Variable IDFromBytes : list byte → string + PeerID.

Lemma step_registryConsistent e w w' :
  step IDFromBytes e w = Some w' → registryConsistent w → registryConsistent w'.
Proof.
  intros Hstep [Hhost Howner]. unfold step in Hstep.
  destruct (panicked (trace w)); [done|].
  destruct e; unfold_workers; repeat case_match; simplify_eq; simpl.
  all: try (by split).
  all: split; simpl; try exact Hhost.
  all: try (apply removeStreamHandlers_consistent; exact Hhost).
  all: try (intros cw' hs' q [[-> <-]|[_ Hs']]%lookup_insert_Some Hin;
            [by apply elem_of_nil in Hin|by eauto]).
  all: try match goal with
       | Hs : sessions _ !! ?cw = Some ?l
         |- ∀ _ _ _, delete ?cw _ !! _ = Some _ → _ =>
           intros cw' hs' q [Hne Hs']%lookup_delete_Some Hin;
           assert (Hout : q ∉ l) by
             (intros Hl; pose proof (Howner _ _ _ Hs Hl); pose proof (Howner _ _ _ Hs' Hin);
              congruence);
           destruct (removeStreamHandlers_other l
                       (set_terminateWG (terminateWG (daemon w) - 1) (daemon w)) q Hout)
             as [-> _];
           simpl; by eauto
       end.
  all: try match goal with
       | |- ∀ _, is_Some (<[?proto := _]> _ !! _) ↔ _ =>
           intros q; destruct (decide (proto = q)) as [<-|Hne];
           [rewrite !lookup_insert_eq; split; [done|by eexists]
           |rewrite !lookup_insert_ne by done; apply Hhost]
       end.
  all: match goal with
       | |- ∀ _ _ _, alter _ ?cw _ !! _ = Some _ → _ ∈ _ → <[?proto := _]> _ !! _ = _ =>
           intros cw' hs' q Hs' Hin; destruct (decide (cw = cw')) as [<-|Hne]
       end.
  all: try match goal with
       | Hs' : alter _ ?cw _ !! ?cw = Some _ |- _ =>
           rewrite lookup_alter_eq in Hs';
           destruct (sessions (runtime w) !! cw) as [hs0|] eqn:Hs0; [|done];
           injection Hs' as <-;
           destruct (decide (proto = q)) as [<-|Hp]; [by rewrite lookup_insert_eq|];
           rewrite lookup_insert_ne by done;
           apply elem_of_app in Hin as [Hin|Hin%list_elem_of_singleton]; [by eauto|congruence]
       end.
  all: rewrite lookup_alter_ne in Hs' by done; pose proof (Howner _ _ _ Hs' Hin) as Hh;
       (destruct (decide (proto = q)) as [<-|Hp]; [|by rewrite lookup_insert_ne]);
       exfalso; assert (is_Some (host (daemon w) !! proto)) as Hsome%Hhost by eauto; congruence.
Qed.

Lemma step_tokensLive e w w' :
  step IDFromBytes e w = Some w' → wellFormed w → tokensLive w → tokensLive w'.
Proof.
  intros Hstep [_ H2 H3 _ _ _] Hlive. unfold step in Hstep. unfold tokensLive in *.
  destruct (panicked (trace w)); [done|].
  destruct e; unfold_workers; repeat case_match; simplify_eq; simpl; try done.
  all: intros id k Hk.
  all: try match goal with
       | H : context [foldl removeStreamHandler ?d ?l] |- _ =>
           destruct (removeStreamHandlers_frame l d) as (Hf1 & _);
           rewrite Hf1 in H; simpl in H
       end.
  all: split_updates; simplify_eq.
  all: repeat match goal with
       | H : cancelUnary _ !! _ = Some _ |- _ => learn (H2 _ _ H); learn (Hlive _ _ H)
       | H : calls _ !! _ = Some _ |- _ => learn (H3 _ _ H)
       end.
  all: try match goal with
       | H : uuid.FromBytes _ = (_, None) |- _ => apply FromBytes_None in H as [? ?]
       end; simplify_eq.
  all: try (by eauto).
  all: match goal with
       | |- ∃ _, delete ?a _ !! ?b = _ ∧ _ =>
           destruct (decide (a = b));
             [exfalso; naive_solver lia|rewrite lookup_delete_ne by done; naive_solver]
       | |- ∃ _, <[?a := _]> _ !! ?b = _ ∧ _ =>
           destruct (decide (a = b));
             [subst; rewrite lookup_insert_eq; naive_solver lia
             |rewrite lookup_insert_ne by done; naive_solver]
       end.
Qed.

Lemma main_registryConsistent idleTimeout maxSize :
  registryConsistent (main idleTimeout maxSize).
Proof.
  unfold main. case_bool_decide; split; simpl; intros; simplify_map_eq;
    split; first [by intros [? ?]|done].
Qed.

Lemma main_tokensLive idleTimeout maxSize : tokensLive (main idleTimeout maxSize).
Proof. unfold main, tokensLive. case_bool_decide; simpl; intros; simplify_map_eq. Qed.

Lemma run_more_invariants es w w' :
  run IDFromBytes es w = Some w' →
  wellFormed w → registryConsistent w → tokensLive w →
  wellFormed w' ∧ registryConsistent w' ∧ tokensLive w'.
Proof.
  revert w. induction es as [|e es IH]; intros w Hrun Hwf Hrc Htl; simpl in Hrun;
    [by simplify_eq|].
  destruct (step IDFromBytes e w) as [w1|] eqn:Hstep; [|done].
  apply (IH w1 Hrun); eauto using step_wellFormed, step_registryConsistent, step_tokensLive.
Qed.

(** ** What holds of every reachable state *)

Lemma reachable_more idleTimeout maxSize es w :
  run IDFromBytes es (main idleTimeout maxSize) = Some w →
  wellFormed w ∧ registryConsistent w ∧ tokensLive w.
Proof.
  intros Hrun. eapply run_more_invariants; [done|..];
    auto using main_wellFormed, main_registryConsistent, main_tokensLive.
Qed.

(** X1.  In every state a run from [main] reaches, the host has a stream
    handler for a protocol exactly when the registry holds [true] for it; a
    protocol that a session lists for its cleanup is handled by that
    session's writer; so no protocol is listed by two sessions. *)
Theorem registry_agrees_with_host idleTimeout maxSize es w :
  run IDFromBytes es (main idleTimeout maxSize) = Some w →
  (∀ p, is_Some (host (daemon w) !! p) ↔
        registeredUnaryProtocols (daemon w) !! p = Some true) ∧
  (∀ cw hs p, sessions (runtime w) !! cw = Some hs → p ∈ hs →
              host (daemon w) !! p = Some cw) ∧
  (∀ cw1 cw2 hs1 hs2 p,
     sessions (runtime w) !! cw1 = Some hs1 → sessions (runtime w) !! cw2 = Some hs2 →
     p ∈ hs1 → p ∈ hs2 → cw1 = cw2).
Proof.
  intros Hrun. destruct (reachable_more _ _ _ _ Hrun) as (_ & [Hhost Howner] & _).
  split; [done|]. split; [done|].
  intros cw1 cw2 hs1 hs2 p Hs1 Hs2 Hin1 Hin2.
  pose proof (Howner _ _ _ Hs1 Hin1). pose proof (Howner _ _ _ Hs2 Hin2). congruence.
Qed.

(** X2.  In every state a run from [main] reaches, neither registry holds a
    stale entry: a token stored in [cancelUnary] under an id is the token of
    a call goroutine that has not returned and was started with that id, and
    a channel stored in [responseWaiters] under an id is the channel of a
    handler that has not returned and that read that id. *)
Theorem registries_hold_no_stale_entry idleTimeout maxSize es w :
  run IDFromBytes es (main idleTimeout maxSize) = Some w →
  (∀ id ctx, cancelUnary (daemon w) !! id = Some ctx →
     ∃ t, calls (runtime w) !! ctx = Some t ∧ callID t = id) ∧
  (∀ id rc, responseWaiters (daemon w) !! id = Some rc →
     ∃ h, handlings (runtime w) !! rc = Some h ∧ handlingCallID h = id).
Proof.
  intros Hrun. destruct (reachable_more _ _ _ _ Hrun) as (Hwf & _ & Hlive).
  split; [exact Hlive|exact (wf_waiters _ Hwf)].
Qed.

(** X3.  The cleanup of a session that ends leaves the other sessions
    alone: a protocol registered by another session keeps its handler, bound
    to that session's writer, and stays [true] in the registry. *)
Theorem sessionExit_keeps_other_sessions idleTimeout maxSize es w cw cw' hs hs' input err p :
  run IDFromBytes es (main idleTimeout maxSize) = Some w →
  panicked (trace w) = false →
  sessions (runtime w) !! cw = Some hs →
  clientReadMsg (daemon w) input = inl err →
  cw' ≠ cw →
  sessions (runtime w) !! cw' = Some hs' →
  p ∈ hs' →
  ∃ w',
    step IDFromBytes (SessionRead cw input) w = Some w' ∧
    sessions (runtime w') !! cw' = Some hs' ∧
    host (daemon w') !! p = Some cw' ∧
    registeredUnaryProtocols (daemon w') !! p = Some true.
Proof.
  intros Hrun Hp Hs Hr Hne Hs' Hin.
  destruct (reachable_more _ _ _ _ Hrun) as (_ & [Hhost Howner] & _).
  rewrite (step_sessionRead _ _ _ _ hs) by done.
  unfold sessionRead. rewrite Hr. unfold sessionExit. rewrite Hs.
  eexists. split; [reflexivity|]. simpl.
  split; [by rewrite lookup_delete_ne|].
  assert (Hout : p ∉ hs).
  { intros Hl. pose proof (Howner _ _ _ Hs Hl). pose proof (Howner _ _ _ Hs' Hin). congruence. }
  destruct (removeStreamHandlers_other hs
              (set_terminateWG (terminateWG (daemon w) - 1) (daemon w)) p Hout) as [-> ->].
  simpl. split; [eauto|]. apply Hhost. eauto.
Qed.

(** ** Inbound streams *)

(** X4.  The remote side of an inbound call fails before the client has
    answered: the handler's [select] takes the channel of [awaitReadFail],
    and the handler writes one [Cancel{}] frame with the call id to the
    client that owns it and nothing to the stream, then removes the entry
    of the call id from [responseWaiters] and closes the stream.  While the
    [Cancel] is being written the handler's channel is still stored: a
    [UnaryResponse] for the id that a session reads then is sent on that
    channel, which no schedule has the handler take, so the goroutine stays
    in its send and writes nothing.  A [UnaryResponse] read once the
    handler has returned is answered with the error [Response for call id
    ... not requested or cancelled]. *)
Theorem readFail_cancels_handling idleTimeout maxSize es rc h w :
  run IDFromBytes es (main idleTimeout maxSize) = Some w →
  panicked (trace w) = false →
  handlings (runtime w) !! rc = Some h →
  handlingPhase h = HSelecting →
  length (handlingCallID h) = 16 →
  ∃ w1 w2,
    step IDFromBytes (InboundReadReturned rc) w = Some w1 ∧
    trace w1 = trace w ∧
    daemon w1 = daemon w ∧
    step IDFromBytes (InboundWriteReturned rc None) w1 = Some w2 ∧
    clientFrames (trace w2) =
      clientFrames (trace w) ++
        [(handlingWriter h, {| RCallId := handlingCallID h; RMessage := Response_Cancel |})] ∧
    streamFrames (trace w2) = streamFrames (trace w) ∧
    closedStreams (trace w2) = closedStreams (trace w) ++ [handlingStream h] ∧
    handlings (runtime w2) !! rc = None ∧
    responseWaiters (daemon w2) !! handlingCallID h = None ∧
    (∀ cw hs input req resp,
       sessions (runtime w) !! cw = Some hs →
       clientReadMsg (daemon w) input = inr req →
       CallId req = handlingCallID h →
       Message req = Request_UnaryResponse resp →
       (responseWaiters (daemon w) !! handlingCallID h = Some rc →
        ∃ w1',
          step IDFromBytes (SessionRead cw input) w1 = Some w1' ∧
          trace w1' = trace w ∧
          sends (runtime w1') = sends (runtime w) ++ [mkSend rc cw req] ∧
          neverReceives IDFromBytes rc w1') ∧
       ∃ w3,
         step IDFromBytes (SessionRead cw input) w2 = Some w3 ∧
         clientFrames (trace w3) =
           clientFrames (trace w2) ++
             [(cw, errorUnaryCallString (handlingCallID h)
                     ("Response for call id " +:+ uuid.fmt_d (handlingCallID h)
                        +:+ " not requested or cancelled"))] ∧
         sends (runtime w3) = sends (runtime w2)).
Proof.
  intros Hrun Hp Hh Hph Hl.
  pose proof (reachable_wellFormed _ _ _ _ _ Hrun) as Hwf.
  destruct (wf_handlings _ Hwf _ _ Hh) as [Hlt _].
  set (w1 := setHandlingPhase rc h HCancelling w).
  assert (Hh1 : handlings (runtime w1) !! rc =
                Some (mkHandling (handlingWriter h) (handlingCallID h) (handlingStream h)
                        (handlingCtx h) HCancelling))
    by apply setHandlingPhase_handlings.
  exists w1. eexists.
  split; [unfold step, streamHandlerReadReturned; by rewrite Hp, Hh, Hph|].
  split; [done|]. split; [done|].
  unfold step at 1, streamHandlerWriteReturned.
  replace (panicked (trace w1)) with false by done. rewrite Hh1.
  cbn [handlingPhase handlingWriter handlingCallID handlingStream handlingCtx].
  split; [reflexivity|].
  set (w2 := handlingReturn _ _ _ _).
  assert (Hw2 : responseWaiters (daemon w2) !! handlingCallID h = None)
    by (subst w2; cbn; apply lookup_delete_eq).
  split; [done|]. split; [done|]. split; [done|].
  split; [subst w2; cbn; apply lookup_delete_eq|]. split; [done|].
  intros cw hs input req resp Hs Hr Hid Hm. split.
  - intros Hw.
    rewrite (send_step _ cw input req rc hs w1); [|done|done|done|congruence|by eexists|].
    2: { rewrite Hid. exact Hw. }
    eexists. split; [reflexivity|]. split; [done|]. split; [done|].
    apply pastSelect_neverReceives; [done|].
    intros h' Hh'. cbn in Hh'. rewrite lookup_insert_eq in Hh'. by simplify_eq.
  - rewrite (step_sessionRead _ _ _ _ hs); [|done|done].
    rewrite (sessionRead_dispatch _ _ _ req); [|done|congruence].
    rewrite Hm. unfold unaryResponseWorker, doSendReponseToRemote.
    rewrite Hid, (FromBytes_ok _ Hl). cbv beta iota. rewrite Hw2. by eexists.
Qed.

(** X5.  How an inbound handler fails before it waits.  A read error on the
    first frame, in particular a frame that announces a negative length or
    more than [network.MessageSizeMax] bytes, only closes the stream.  When
    the notification cannot be written to the client, nothing is written,
    no handler stays behind, the stream is closed, and the deferred
    [Delete] leaves [responseWaiters] without an entry for the call id,
    whether or not another handler had stored one. *)
Theorem handler_start_failures proto cw s remote input clientErr w :
  panicked (trace w) = false →
  host (daemon w) !! proto = Some cw →
  (∀ err, ReadMsg MessageSizeMax input = inl err →
     step IDFromBytes (InboundStream proto s remote input clientErr) w
       = Some (StreamClose s w)) ∧
  (∀ f, input = InputFrame f → (frameLen f < 0 ∨ MessageSizeMax < frameLen f)%Z →
     step IDFromBytes (InboundStream proto s remote input clientErr) w
       = Some (StreamClose s w)) ∧
  (∀ req call err,
     ReadMsg MessageSizeMax input = inr req →
     Message req = Request_CallUnary call →
     length (CallId req) = 16 →
     clientErr = Some err →
     ∃ w',
       step IDFromBytes (InboundStream proto s remote input clientErr) w = Some w' ∧
       clientFrames (trace w') = clientFrames (trace w) ∧
       streamFrames (trace w') = streamFrames (trace w) ∧
       closedStreams (trace w') = closedStreams (trace w) ++ [s] ∧
       handlings (runtime w') = handlings (runtime w) ∧
       responseWaiters (daemon w') = delete (CallId req) (responseWaiters (daemon w))).
Proof.
  intros Hp Hh. rewrite (step_inbound _ _ _ _ _ _ _ _ Hp Hh). unfold streamHandler.
  split; [by intros err ->|]. split.
  - intros f -> Hlen. unfold ReadMsg. by rewrite bool_decide_eq_true_2.
  - intros req call err Hr Hm Hl ->. unfold GetCallUnary. rewrite Hr, Hm, (FromBytes_ok _ Hl).
    eexists. split; [reflexivity|]. cbn. repeat split. apply delete_insert_eq.
Qed.

(** X6.  [responseWaiters.Store] does not look for an entry: when a remote
    call comes in with the id of a call whose handler has not returned, the
    new channel replaces the old one in the registry while both handlers
    are live; when the first handler returns (from its [select] on a read
    failure, or from the write it is in, whether or not that write fails),
    its deferred [Delete] removes the entry of the second one, which still
    waits in its [select] and can no longer be answered. *)
Theorem duplicate_inbound_call_id idleTimeout maxSize es w c rc1 proto cw s2 remote n call
    err :
  run IDFromBytes es (main idleTimeout maxSize) = Some w →
  panicked (trace w) = false →
  responseWaiters (daemon w) !! c = Some rc1 →
  host (daemon w) !! proto = Some cw →
  (0 ≤ n ≤ MessageSizeMax)%Z →
  length c = 16 →
  ∃ h1 w1 w2,
    handlings (runtime w) !! rc1 = Some h1 ∧
    step IDFromBytes
      (InboundStream proto s2 remote
         (InputFrame (mkFrame n (Some (mkRequest c (Request_CallUnary call))))) None) w
      = Some w1 ∧
    responseWaiters (daemon w1) !! c = Some (nextId (runtime w)) ∧
    nextId (runtime w) ≠ rc1 ∧
    handlings (runtime w1) !! rc1 = Some h1 ∧
    handlings (runtime w1) !! nextId (runtime w) =
      Some (mkHandling cw c s2 (S (nextId (runtime w))) HSelecting) ∧
    run IDFromBytes
      (match handlingPhase h1 with
       | HSelecting => [InboundReadReturned rc1]
       | _ => []
       end ++ [InboundWriteReturned rc1 err]) w1 = Some w2 ∧
    responseWaiters (daemon w2) !! c = None ∧
    handlings (runtime w2) !! nextId (runtime w) =
      Some (mkHandling cw c s2 (S (nextId (runtime w))) HSelecting).
Proof.
  intros Hrun Hp Hw Hh Hn Hl.
  pose proof (reachable_wellFormed _ _ _ _ _ Hrun) as Hwf.
  destruct (wf_waiters _ Hwf _ _ Hw) as (h1 & Hh1 & Hid).
  destruct (wf_handlings _ Hwf _ _ Hh1) as [Hlt _].
  destruct (inbound_step IDFromBytes proto cw s2 remote n c call w Hp Hh Hn Hl)
    as (w1 & Hstep & Hp1 & _ & _ & Hw1 & Hh2 & _).
  assert (Hne : nextId (runtime w) ≠ rc1) by lia.
  assert (Hh1' : handlings (runtime w1) !! rc1 = Some h1).
  { rewrite (step_inbound _ _ _ _ _ _ _ _ Hp Hh) in Hstep. injection Hstep as <-.
    unfold streamHandler. rewrite (ReadMsg_frame _ _ _ Hn).
    cbn [GetCallUnary Message CallId]. rewrite (FromBytes_ok _ Hl). cbn.
    by rewrite lookup_insert_ne. }
  exists h1, w1.
  destruct (handlingPhase h1) eqn:Hph1; cbn [app run].
  - set (w1' := setHandlingPhase rc1 h1 HCancelling w1).
    assert (Hh1'' : handlings (runtime w1') !! rc1 =
                    Some (mkHandling (handlingWriter h1) (handlingCallID h1)
                            (handlingStream h1) (handlingCtx h1) HCancelling))
      by apply setHandlingPhase_handlings.
    assert (Hs1 : step IDFromBytes (InboundReadReturned rc1) w1 = Some w1')
      by (unfold step, streamHandlerReadReturned; by rewrite Hp1, Hh1', Hph1).
    rewrite Hs1. unfold step, streamHandlerWriteReturned.
    replace (panicked (trace w1')) with false by done. rewrite Hh1''.
    cbn [handlingPhase handlingWriter handlingCallID handlingStream handlingCtx].
    rewrite Hid.
    destruct err; (eexists; split; [done|]; split; [done|]; split; [done|];
      split; [done|]; split; [done|]; split; [done|]; split; [reflexivity|]; cbn;
      split; [apply lookup_delete_eq|]; by rewrite lookup_delete_ne, lookup_insert_ne).
  - unfold step at 2, streamHandlerWriteReturned. rewrite Hp1, Hh1', Hph1, Hid.
    destruct err; (eexists; split; [done|]; split; [done|]; split; [done|];
      split; [done|]; split; [done|]; split; [done|]; split; [reflexivity|]; cbn;
      split; [apply lookup_delete_eq|]; by rewrite lookup_delete_ne).
  - unfold step at 2, streamHandlerWriteReturned. rewrite Hp1, Hh1', Hph1, Hid.
    destruct err; (eexists; split; [done|]; split; [done|]; split; [done|];
      split; [done|]; split; [done|]; split; [done|]; split; [reflexivity|]; cbn;
      split; [apply lookup_delete_eq|]; by rewrite lookup_delete_ne).
Qed.

(** ** Outbound calls *)

(** X7.  Once the token of a call has fired, what the exchange reads is
    thrown away: whatever the read returns, a frame, a frame too long or an
    error, the exchange closes its channel without sending, and the call
    ends with [Cancel{}] when the select takes [ctx.Done], or with the nil
    message the closed channel yields when it takes the channel; no
    [CallUnaryResponse] and no [DaemonError] is written. *)
Theorem response_after_cancel_is_dropped ctx t s input w :
  panicked (trace w) = false →
  calls (runtime w) !! ctx = Some t →
  callPhase t = CallSelecting s ExReading →
  ctxErr ctx w = true →
  (∃ w',
     run IDFromBytes [StreamReadReturned ctx input; SelectDone ctx] w = Some w' ∧
     callEnded ctx t (Some s) (okCancelled (callID t)) w w') ∧
  (∃ w',
     run IDFromBytes [StreamReadReturned ctx input; SelectResponse ctx] w = Some w' ∧
     clientFrames (trace w') = clientFrames (trace w) ∧
     nilWrites (trace w') = nilWrites (trace w) ++ [callWriter t] ∧
     cancelUnary (daemon w') !! callID t = None ∧
     calls (runtime w') !! ctx = None ∧
     closedStreams (trace w') = closedStreams (trace w) ++ [s]).
Proof.
  intros Hp Hc Hph Hctx. cbn [run]. unfold step at 1 3, streamReadReturned.
  rewrite Hp, Hc, Hph, Hctx.
  set (w1 := setPhase _ _ _ _).
  assert (Hc1 : calls (runtime w1) !! ctx =
                Some (mkCallTask (callWriter t) (callID t) (callReq t) (CallSelecting s ExClosed)))
    by apply setPhase_calls.
  unfold step, selectDone, selectResponse.
  replace (panicked (trace w1)) with false by done.
  replace (ctxErr ctx w1) with true by done. rewrite Hc1. cbn [callPhase].
  split.
  - eexists. split; [reflexivity|]. by apply callReturn_ended.
  - eexists. split; [reflexivity|]. unfold callReturn. cbn.
    repeat split. apply lookup_delete_eq. apply lookup_delete_eq.
Qed.

(** X8.  A cancellation does not take back a write: when the token fires
    while the request is being written and the write succeeds, the request
    is on the remote stream.  The exchange stops there: it does not read,
    sends nothing and closes its channel.  The call then ends with
    [Cancel{}] when the worker's [select] takes [ctx.Done()], and with the
    nil response handed to [WriteMsg] when it takes the closed channel;
    nothing more is written on the stream either way. *)
Theorem write_after_cancel_still_sends ctx t s w :
  panicked (trace w) = false →
  calls (runtime w) !! ctx = Some t →
  callPhase t = CallSelecting s ExWriting →
  ctxErr ctx w = true →
  ∃ w1,
    step IDFromBytes (StreamWriteReturned ctx None) w = Some w1 ∧
    streamFrames (trace w1) = streamFrames (trace w) ++ [(s, callReq t)] ∧
    clientFrames (trace w1) = clientFrames (trace w) ∧
    nilWrites (trace w1) = nilWrites (trace w) ∧
    calls (runtime w1) !! ctx =
      Some (mkCallTask (callWriter t) (callID t) (callReq t) (CallSelecting s ExClosed)) ∧
    (∀ input, step IDFromBytes (StreamReadReturned ctx input) w1 = None) ∧
    (∃ w',
       step IDFromBytes (SelectDone ctx) w1 = Some w' ∧
       callEnded ctx t (Some s) (okCancelled (callID t)) w1 w' ∧
       streamFrames (trace w') = streamFrames (trace w1)) ∧
    (∃ w',
       step IDFromBytes (SelectResponse ctx) w1 = Some w' ∧
       callEndedNil ctx t s w1 w' ∧
       streamFrames (trace w') = streamFrames (trace w1)).
Proof.
  intros Hp Hc Hph Hctx. unfold step at 1, streamWriteReturned.
  rewrite Hp, Hc, Hph.
  replace (ctxErr ctx (StreamWriteMsg s (callReq t) w)) with (ctxErr ctx w) by done.
  rewrite Hctx.
  set (w1 := setPhase _ _ _ _).
  assert (Hc1 : calls (runtime w1) !! ctx =
                Some (mkCallTask (callWriter t) (callID t) (callReq t) (CallSelecting s ExClosed)))
    by apply setPhase_calls.
  exists w1. split; [done|]. split; [done|]. split; [done|]. split; [done|].
  split; [done|].
  unfold step, streamReadReturned, selectDone, selectResponse.
  replace (panicked (trace w1)) with false by done.
  replace (ctxErr ctx w1) with true by done. rewrite Hc1. cbn [callPhase].
  split; [done|]. split.
  - eexists. split; [reflexivity|]. split; [by apply callReturn_ended|done].
  - eexists. split; [reflexivity|]. split; [|done].
    unfold callEndedNil, callReturn. cbn. repeat split; apply lookup_delete_eq.
Qed.

(** X9.  [cancelUnary.Store] does not look for an entry: a second
    [CallUnary] with the id of a call in flight replaces that call's token
    in the registry.  From then on a [Cancel] for the id fires the token of
    the second call only, and when the first call returns, its deferred
    [Delete] removes the entry of the second call, which a [Cancel] can then
    no longer reach. *)
Theorem duplicate_outbound_call_id idleTimeout maxSize es w ctx1 t1 s1 cw hs input req call pid
    answer :
  run IDFromBytes es (main idleTimeout maxSize) = Some w →
  panicked (trace w) = false →
  calls (runtime w) !! ctx1 = Some t1 →
  callPhase t1 = CallSelecting s1 ExReading →
  ctxErr ctx1 w = false →
  sessions (runtime w) !! cw = Some hs →
  clientReadMsg (daemon w) input = inr req →
  CallId req = callID t1 →
  Message req = Request_CallUnary call →
  IDFromBytes (Peer call) = inr pid →
  ∃ w1 w2,
    step IDFromBytes (SessionRead cw input) w = Some w1 ∧
    nextId (runtime w) ≠ ctx1 ∧
    cancelUnary (daemon w1) !! callID t1 = Some (nextId (runtime w)) ∧
    calls (runtime w1) !! ctx1 = Some t1 ∧
    calls (runtime w1) !! nextId (runtime w) =
      Some (mkCallTask cw (callID t1) req (CallOpening pid)) ∧
    ctxErr ctx1 (cancelWorker (callID t1) w1) = false ∧
    ctxErr (nextId (runtime w)) (cancelWorker (callID t1) w1) = true ∧
    run IDFromBytes [StreamReadReturned ctx1 answer; SelectResponse ctx1] w1 = Some w2 ∧
    cancelUnary (daemon w2) !! callID t1 = None ∧
    calls (runtime w2) !! nextId (runtime w) =
      Some (mkCallTask cw (callID t1) req (CallOpening pid)) ∧
    cancelWorker (callID t1) w2 = w2.
Proof.
  intros Hrun Hp Hc Hph Hctx Hs Hr Hid Hm Hpid. set (ctx2 := nextId (runtime w)).
  pose proof (reachable_wellFormed _ _ _ _ _ Hrun) as Hwf.
  destruct (wf_calls _ Hwf _ _ Hc) as (Hlt & _ & Hlen).
  assert (Hne : ctx2 ≠ ctx1) by (subst ctx2; lia).
  assert (Hfresh : ctxErr ctx2 w = false).
  { unfold ctxErr. apply bool_decide_eq_false. intros Hin%(wf_done _ Hwf). subst ctx2. lia. }
  rewrite (step_sessionRead _ _ _ _ hs), (sessionRead_dispatch _ _ _ req), Hm by congruence.
  unfold callUnaryWorker. cbn [fresh]. rewrite Hpid, Hid.
  set (w1 := setPhase _ _ _ _).
  assert (Hc1 : calls (runtime w1) !! ctx1 = Some t1).
  { subst w1. unfold setPhase. cbn. by rewrite lookup_insert_ne. }
  assert (Hcu1 : cancelUnary (daemon w1) !! callID t1 = Some ctx2)
    by (subst w1; cbn; apply lookup_insert_eq).
  assert (Hp1 : panicked (trace w1) = false) by done.
  assert (Hx1 : ctxErr ctx1 w1 = false) by done.
  exists w1.
  destruct (ReadMsg MessageSizeMax answer) as [err|remoteResp] eqn:Hans;
    (eexists; split; [reflexivity|]; split; [done|]; split; [done|]; split; [done|];
     split; [apply setPhase_calls|];
     unfold cancelWorker at 1 2; rewrite Hcu1;
     split;
     [unfold ctxErr in *; apply bool_decide_eq_false; apply bool_decide_eq_false in Hx1;
      cbn in *; set_solver|];
     split; [unfold ctxErr; apply bool_decide_eq_true; cbn; set_solver|];
     cbn [run]; unfold step at 1, streamReadReturned; rewrite Hp1, Hc1, Hph, Hx1, Hans;
     match goal with |- context [setPhase ctx1 t1 ?ph w1] =>
       pose proof (setPhase_calls ctx1 t1 ph w1) as Hc1'; set (w1' := setPhase ctx1 t1 ph w1) in *
     end;
     unfold step, selectResponse; replace (panicked (trace w1')) with false by done;
     rewrite Hc1'; cbn [callPhase];
     split; [reflexivity|]; unfold callReturn, cancelWorker; cbn;
     rewrite lookup_delete_eq; split; [done|]; split; [|done];
     rewrite lookup_delete_ne, lookup_insert_ne by done; apply lookup_insert_eq).
Qed.

(** ** The session loop *)

Lemma cancel_cancel k w : cancel k (cancel k w) = cancel k w.
Proof.
  unfold cancel, on_runtime, set_ctxDone. cbn. do 2 f_equal. set_solver.
Qed.

(** X10.  Reading the same [Cancel] request twice leaves the daemon in the
    state that reading it once does: firing a token that has fired changes
    nothing. *)
Theorem cancel_twice_is_cancel_once cw input req hs w :
  panicked (trace w) = false →
  sessions (runtime w) !! cw = Some hs →
  clientReadMsg (daemon w) input = inr req →
  Message req = Request_Cancel →
  run IDFromBytes [SessionRead cw input; SessionRead cw input] w =
    run IDFromBytes [SessionRead cw input] w.
Proof.
  intros Hp Hs Hr Hm. cbn [run].
  rewrite (step_sessionRead _ _ _ _ hs) by done.
  assert (Hone : ∃ w1, sessionRead IDFromBytes cw input w = w1 ∧
                       (w1 = w ∨ ∃ cf, cancelUnary (daemon w) !! CallId req = Some cf ∧
                                       w1 = cancel cf w)).
  { unfold sessionRead. rewrite Hr, Hm.
    destruct (uuid.FromBytes (CallId req)) as [callID [e|]] eqn:Hid; [by eauto|].
    apply FromBytes_None in Hid as [-> _]. unfold cancelWorker.
    destruct (cancelUnary (daemon w) !! CallId req) as [cf|] eqn:Hcf; [|by eauto].
    eexists. split; [reflexivity|]. right. by exists cf. }
  destruct Hone as (w1 & Hw1 & [->|(cf & Hcf & ->)]); rewrite Hw1.
  { by rewrite (step_sessionRead _ _ _ _ hs), Hw1. }
  rewrite (step_sessionRead _ _ _ _ hs) by done. f_equal.
  unfold sessionRead. replace (clientReadMsg (daemon (cancel cf w)) input) with (inr req : string + _)
    by (symmetry; exact Hr).
  rewrite Hm. destruct (uuid.FromBytes (CallId req)) as [callID [e|]] eqn:Hid; [done|].
  apply FromBytes_None in Hid as [-> _]. unfold cancelWorker. cbn [cancel on_runtime daemon].
  replace (cancelUnary (daemon w) !! CallId req) with (Some cf). apply cancel_cancel.
Qed.

(** X11.  One request read by a session has at most one frame written to
    a client by the time its goroutine has run to its first blocking point,
    and that frame goes to the writer of the session that read the request
    and carries the request's call id. *)
Theorem sessionRead_writes_at_most_one_frame cw input hs w :
  panicked (trace w) = false →
  sessions (runtime w) !! cw = Some hs →
  ∃ w' frames,
    step IDFromBytes (SessionRead cw input) w = Some w' ∧
    clientFrames (trace w') = clientFrames (trace w) ++ frames ∧
    length frames ≤ 1 ∧
    (∀ f, f ∈ frames →
       f.1 = cw ∧ ∃ req, clientReadMsg (daemon w) input = inr req ∧ RCallId f.2 = CallId req).
Proof.
  intros Hp Hs. rewrite (step_sessionRead _ _ _ _ hs) by done.
  exists (sessionRead IDFromBytes cw input w).
  cut (∃ frames,
         clientFrames (trace (sessionRead IDFromBytes cw input w)) =
           clientFrames (trace w) ++ frames ∧
         length frames ≤ 1 ∧
         (∀ f, f ∈ frames →
            f.1 = cw ∧ ∃ req, clientReadMsg (daemon w) input = inr req ∧
                              RCallId f.2 = CallId req)).
  { intros (frames & ? & ? & ?). by exists frames. }
  unfold sessionRead.
  destruct (clientReadMsg (daemon w) input) as [err|req] eqn:Hr.
  { exists []. unfold sessionExit. rewrite Hs. cbn. rewrite app_nil_r.
    split; [done|]. split; [lia|]. by intros ? ?%elem_of_nil. }
  destruct (uuid.FromBytes (CallId req)) as [callID [e|]] eqn:Hid.
  { exists []. rewrite app_nil_r. split; [done|]. split; [cbn; lia|]. by intros ? ?%elem_of_nil. }
  apply FromBytes_None in Hid as [-> Hl].
  unfold addUnaryHandlerWorker, doAddUnaryHandler, callUnaryWorker, unaryResponseWorker,
    doSendReponseToRemote, cancelWorker, streamHandlerResponse, callReturn, fresh.
  rewrite (FromBytes_ok _ Hl).
  repeat case_match; simplify_eq; cbn.
  all: first
    [ exists []; rewrite app_nil_r; split; [reflexivity|]; split; [cbn; lia|];
      by intros ? ?%elem_of_nil
    | eexists [_]; split; [reflexivity|]; split; [cbn; lia|];
      intros ? ->%list_elem_of_singleton; split; [done|]; eexists; split; [reflexivity|done] ].
Qed.

(** X15.  A [CallUnary] whose peer bytes do not parse is answered with
    [DaemonError] carrying the parse error: no stream is opened, written or
    closed, no call stays behind, and the deferred [Delete] leaves
    [cancelUnary] without an entry for the call id. *)
Theorem unparsable_peer_is_rejected idleTimeout maxSize es cw input req call err hs w :
  run IDFromBytes es (main idleTimeout maxSize) = Some w →
  panicked (trace w) = false →
  sessions (runtime w) !! cw = Some hs →
  clientReadMsg (daemon w) input = inr req →
  length (CallId req) = 16 →
  Message req = Request_CallUnary call →
  IDFromBytes (Peer call) = inl err →
  ∃ w',
    step IDFromBytes (SessionRead cw input) w = Some w' ∧
    clientFrames (trace w') = clientFrames (trace w) ++ [(cw, errorUnaryCall (CallId req) err)] ∧
    streamFrames (trace w') = streamFrames (trace w) ∧
    closedStreams (trace w') = closedStreams (trace w) ∧
    calls (runtime w') = calls (runtime w) ∧
    cancelUnary (daemon w') = delete (CallId req) (cancelUnary (daemon w)).
Proof.
  intros Hrun Hp Hs Hr Hl Hm Hpid.
  pose proof (reachable_wellFormed _ _ _ _ _ Hrun) as Hwf.
  rewrite (step_sessionRead _ _ _ _ hs), (sessionRead_dispatch _ _ _ req), Hm by done.
  unfold callUnaryWorker. cbn [fresh]. rewrite Hpid.
  eexists. split; [reflexivity|]. unfold callReturn. cbn.
  repeat split.
  - apply delete_id. destruct (calls (runtime w) !! nextId (runtime w)) as [t|] eqn:Ht; [|done].
    apply (wf_calls _ Hwf) in Ht as [Hlt _]. lia.
  - apply delete_insert_eq.
Qed.

End FurtherProperties.

(** * Further examples *)

(** X13, at sample values: no port is given and the server can run on 6062
    only. *)
Lemma pprofHTTP_scan_witness :
  (∀ j, j < length (pprofHTTP MoreSamples.listen6062 0) →
        pprofHTTP MoreSamples.listen6062 0 !! j = Some (6060 + Z.of_nat j)%Z) ∧
  (∀ p, p ∈ pprofHTTP MoreSamples.listen6062 0 → 6060 ≤ p ≤ 7080)%Z ∧
  (∀ j, S j < length (pprofHTTP MoreSamples.listen6062 0) →
        MoreSamples.listen6062 (6060 + Z.of_nat j)%Z = false) ∧
  (∀ p, (6060 ≤ p ≤ 7080)%Z → MoreSamples.listen6062 p = true →
     ∃ q, last (pprofHTTP MoreSamples.listen6062 0) = Some q ∧ (q ≤ p)%Z ∧
          MoreSamples.listen6062 q = true).
Proof. apply (pprofHTTP_scan MoreSamples.listen6062 0). lia. Defined.

(** X14, at sample values: a flag with two addresses. *)
Lemma parseAddrs_all_or_nothing_witness :
  String.concat "," (splitComma "/ip4/10.0.0.1/tcp/4001,/ip4/10.0.0.2/tcp/4001")
    = "/ip4/10.0.0.1/tcp/4001,/ip4/10.0.0.2/tcp/4001" ∧
  (∀ addrs,
     parseAddrs MoreSamples.NewMultiaddr "/ip4/10.0.0.1/tcp/4001,/ip4/10.0.0.2/tcp/4001" []
       = inr addrs ↔
     Forall2 (λ s ma, MoreSamples.NewMultiaddr s = inr ma)
       (splitComma "/ip4/10.0.0.1/tcp/4001,/ip4/10.0.0.2/tcp/4001") addrs) ∧
  (∀ addrs,
     parseAddrs MoreSamples.NewMultiaddr "/ip4/10.0.0.1/tcp/4001,/ip4/10.0.0.2/tcp/4001" []
       = inr addrs → 0 < length addrs) ∧
  (∀ err,
     parseAddrs MoreSamples.NewMultiaddr "/ip4/10.0.0.1/tcp/4001,/ip4/10.0.0.2/tcp/4001" []
       = inl err ↔
     ∃ i s, splitComma "/ip4/10.0.0.1/tcp/4001,/ip4/10.0.0.2/tcp/4001" !! i = Some s ∧
            MoreSamples.NewMultiaddr s = inl err ∧
            ∀ j s', j < i →
              splitComma "/ip4/10.0.0.1/tcp/4001,/ip4/10.0.0.2/tcp/4001" !! j = Some s' →
              ∃ ma, MoreSamples.NewMultiaddr s' = inr ma).
Proof.
  apply (parseAddrs_all_or_nothing MoreSamples.NewMultiaddr
           "/ip4/10.0.0.1/tcp/4001,/ip4/10.0.0.2/tcp/4001" []).
  discriminate.
Defined.

(** X1, at sample values: session 0 has registered ["/p/1"] and session 1
    ["/p/2"]. *)
Lemma registry_agrees_with_host_witness :
  (∀ p, is_Some (host (daemon MoreSamples.withTwoOwners) !! p) ↔
        registeredUnaryProtocols (daemon MoreSamples.withTwoOwners) !! p = Some true) ∧
  (∀ cw hs p, sessions (runtime MoreSamples.withTwoOwners) !! cw = Some hs → p ∈ hs →
              host (daemon MoreSamples.withTwoOwners) !! p = Some cw) ∧
  (∀ cw1 cw2 hs1 hs2 p,
     sessions (runtime MoreSamples.withTwoOwners) !! cw1 = Some hs1 →
     sessions (runtime MoreSamples.withTwoOwners) !! cw2 = Some hs2 →
     p ∈ hs1 → p ∈ hs2 → cw1 = cw2).
Proof.
  apply (registry_agrees_with_host Sample.IDFromBytes 0 4194304 MoreSamples.twoOwners).
  vm_compute; reflexivity.
Defined.

(** X2, at sample values: session 0 has a call in flight. *)
Lemma registries_hold_no_stale_entry_witness :
  (∀ id ctx, cancelUnary (daemon Sample.inCall) !! id = Some ctx →
     ∃ t, calls (runtime Sample.inCall) !! ctx = Some t ∧ callID t = id) ∧
  (∀ id rc, responseWaiters (daemon Sample.inCall) !! id = Some rc →
     ∃ h, handlings (runtime Sample.inCall) !! rc = Some h ∧ handlingCallID h = id).
Proof.
  apply (registries_hold_no_stale_entry Sample.IDFromBytes 0 4194304 Sample.calling).
  vm_compute; reflexivity.
Defined.

(** X3, at sample values: session 0 ends, session 1 keeps ["/p/2"]. *)
Lemma sessionExit_keeps_other_sessions_witness :
  ∃ w',
    step Sample.IDFromBytes (SessionRead 0 (InputError "EOF")) MoreSamples.withTwoOwners
      = Some w' ∧
    sessions (runtime w') !! 1 = Some ["/p/2"] ∧
    host (daemon w') !! "/p/2" = Some 1 ∧
    registeredUnaryProtocols (daemon w') !! "/p/2" = Some true.
Proof.
  apply (sessionExit_keeps_other_sessions Sample.IDFromBytes 0 4194304 MoreSamples.twoOwners
           MoreSamples.withTwoOwners 0 1 ["/p/1"] ["/p/2"] (InputError "EOF") "EOF" "/p/2").
  - vm_compute; reflexivity.
  - vm_compute; reflexivity.
  - vm_compute; reflexivity.
  - reflexivity.
  - lia.
  - vm_compute; reflexivity.
  - apply list_elem_of_here.
Defined.

(** X4, at sample values: the stream of the call that session 0 handles
    fails. *)
Lemma readFail_cancels_handling_witness :
  ∃ w1 w2,
    step Sample.IDFromBytes (InboundReadReturned 0) Sample.inHandling = Some w1 ∧
    trace w1 = trace Sample.inHandling ∧
    daemon w1 = daemon Sample.inHandling ∧
    step Sample.IDFromBytes (InboundWriteReturned 0 None) w1 = Some w2 ∧
    clientFrames (trace w2) =
      clientFrames (trace Sample.inHandling) ++
        [(0, {| RCallId := Sample.c; RMessage := Response_Cancel |})] ∧
    streamFrames (trace w2) = streamFrames (trace Sample.inHandling) ∧
    closedStreams (trace w2) = closedStreams (trace Sample.inHandling) ++ [1] ∧
    handlings (runtime w2) !! 0 = None ∧
    responseWaiters (daemon w2) !! Sample.c = None ∧
    (∀ cw hs input req resp,
       sessions (runtime Sample.inHandling) !! cw = Some hs →
       clientReadMsg (daemon Sample.inHandling) input = inr req →
       CallId req = Sample.c →
       Message req = Request_UnaryResponse resp →
       (responseWaiters (daemon Sample.inHandling) !! Sample.c = Some 0 →
        ∃ w1',
          step Sample.IDFromBytes (SessionRead cw input) w1 = Some w1' ∧
          trace w1' = trace Sample.inHandling ∧
          sends (runtime w1') = sends (runtime Sample.inHandling) ++ [mkSend 0 cw req] ∧
          neverReceives Sample.IDFromBytes 0 w1') ∧
       ∃ w3,
         step Sample.IDFromBytes (SessionRead cw input) w2 = Some w3 ∧
         clientFrames (trace w3) =
           clientFrames (trace w2) ++
             [(cw, errorUnaryCallString Sample.c
                     ("Response for call id " +:+ uuid.fmt_d Sample.c
                        +:+ " not requested or cancelled"))] ∧
         sends (runtime w3) = sends (runtime w2)).
Proof.
  apply (readFail_cancels_handling Sample.IDFromBytes 0 4194304 Sample.handling 0
           MoreSamples.waiting Sample.inHandling).
  - vm_compute; reflexivity.
  - vm_compute; reflexivity.
  - vm_compute; reflexivity.
  - reflexivity.
  - reflexivity.
Defined.

(** X5, at sample values: a call comes in on ["/p/1"] and the client of
    session 0 cannot be written. *)
Lemma handler_start_failures_witness :
  ∃ w',
    step Sample.IDFromBytes
      (InboundStream "/p/1" 1 Sample.peerB (Sample.frame Sample.call) (Some "broken pipe"))
      Sample.registered = Some w' ∧
    clientFrames (trace w') = clientFrames (trace Sample.registered) ∧
    streamFrames (trace w') = streamFrames (trace Sample.registered) ∧
    closedStreams (trace w') = closedStreams (trace Sample.registered) ++ [1] ∧
    handlings (runtime w') = handlings (runtime Sample.registered) ∧
    responseWaiters (daemon w') =
      delete Sample.c (responseWaiters (daemon Sample.registered)).
Proof.
  destruct (handler_start_failures Sample.IDFromBytes "/p/1" 0 1 Sample.peerB
              (Sample.frame Sample.call) (Some "broken pipe") Sample.registered)
    as (_ & _ & Hwrite).
  - vm_compute; reflexivity.
  - vm_compute; reflexivity.
  - apply (Hwrite Sample.call (mkCallUnaryRequest Sample.peerA "/p/1" [x07]) "broken pipe");
      reflexivity.
Defined.

(** X6, at sample values: a second call with id [Sample.c] comes in on
    stream 3 while the handler of the first one waits; the first handler
    then returns on a read failure. *)
Lemma duplicate_inbound_call_id_witness :
  ∃ h1 w1 w2,
    handlings (runtime Sample.inHandling) !! 0 = Some h1 ∧
    step Sample.IDFromBytes
      (InboundStream "/p/1" 3 Sample.peerB
         (InputFrame (mkFrame 64 (Some (mkRequest Sample.c
            (Request_CallUnary (mkCallUnaryRequest Sample.peerA "/p/1" [x07])))))) None)
      Sample.inHandling = Some w1 ∧
    responseWaiters (daemon w1) !! Sample.c = Some (nextId (runtime Sample.inHandling)) ∧
    nextId (runtime Sample.inHandling) ≠ 0 ∧
    handlings (runtime w1) !! 0 = Some h1 ∧
    handlings (runtime w1) !! nextId (runtime Sample.inHandling) =
      Some (mkHandling 0 Sample.c 3 (S (nextId (runtime Sample.inHandling))) HSelecting) ∧
    run Sample.IDFromBytes
      (match handlingPhase h1 with
       | HSelecting => [InboundReadReturned 0]
       | _ => []
       end ++ [InboundWriteReturned 0 None]) w1 = Some w2 ∧
    responseWaiters (daemon w2) !! Sample.c = None ∧
    handlings (runtime w2) !! nextId (runtime Sample.inHandling) =
      Some (mkHandling 0 Sample.c 3 (S (nextId (runtime Sample.inHandling))) HSelecting).
Proof.
  apply (duplicate_inbound_call_id Sample.IDFromBytes 0 4194304 Sample.handling
           Sample.inHandling Sample.c 0 "/p/1" 0 3 Sample.peerB 64
           (mkCallUnaryRequest Sample.peerA "/p/1" [x07]) None).
  - vm_compute; reflexivity.
  - vm_compute; reflexivity.
  - vm_compute; reflexivity.
  - vm_compute; reflexivity.
  - unfold MessageSizeMax. lia.
  - reflexivity.
Defined.

(** X7, at sample values: the response arrives after the [Cancel]. *)
Lemma response_after_cancel_is_dropped_witness :
  (∃ w',
     run Sample.IDFromBytes
       [StreamReadReturned 0 (Sample.frame Sample.answer); SelectDone 0]
       MoreSamples.inCancelledRead = Some w' ∧
     callEnded 0 Sample.inCallTask (Some 2) (okCancelled Sample.c)
       MoreSamples.inCancelledRead w') ∧
  (∃ w',
     run Sample.IDFromBytes
       [StreamReadReturned 0 (Sample.frame Sample.answer); SelectResponse 0]
       MoreSamples.inCancelledRead = Some w' ∧
     clientFrames (trace w') = clientFrames (trace MoreSamples.inCancelledRead) ∧
     nilWrites (trace w') = nilWrites (trace MoreSamples.inCancelledRead) ++ [0] ∧
     cancelUnary (daemon w') !! Sample.c = None ∧
     calls (runtime w') !! 0 = None ∧
     closedStreams (trace w') = closedStreams (trace MoreSamples.inCancelledRead) ++ [2]).
Proof.
  apply (response_after_cancel_is_dropped Sample.IDFromBytes 0 Sample.inCallTask 2
           (Sample.frame Sample.answer) MoreSamples.inCancelledRead).
  - vm_compute; reflexivity.
  - vm_compute; reflexivity.
  - reflexivity.
  - vm_compute; reflexivity.
Defined.

(** X8, at sample values: the [Cancel] arrives while the request is
    written. *)
Lemma write_after_cancel_still_sends_witness :
  ∃ w1,
    step Sample.IDFromBytes (StreamWriteReturned 0 None) MoreSamples.inCancelledWrite
      = Some w1 ∧
    streamFrames (trace w1) =
      streamFrames (trace MoreSamples.inCancelledWrite) ++ [(2, Sample.call)] ∧
    clientFrames (trace w1) = clientFrames (trace MoreSamples.inCancelledWrite) ∧
    nilWrites (trace w1) = nilWrites (trace MoreSamples.inCancelledWrite) ∧
    calls (runtime w1) !! 0 =
      Some (mkCallTask 0 Sample.c Sample.call (CallSelecting 2 ExClosed)) ∧
    (∀ input, step Sample.IDFromBytes (StreamReadReturned 0 input) w1 = None) ∧
    (∃ w',
       step Sample.IDFromBytes (SelectDone 0) w1 = Some w' ∧
       callEnded 0 MoreSamples.inWriteTask (Some 2) (okCancelled Sample.c) w1 w' ∧
       streamFrames (trace w') = streamFrames (trace w1)) ∧
    (∃ w',
       step Sample.IDFromBytes (SelectResponse 0) w1 = Some w' ∧
       callEndedNil 0 MoreSamples.inWriteTask 2 w1 w' ∧
       streamFrames (trace w') = streamFrames (trace w1)).
Proof.
  apply (write_after_cancel_still_sends Sample.IDFromBytes 0 MoreSamples.inWriteTask 2
           MoreSamples.inCancelledWrite).
  - vm_compute; reflexivity.
  - vm_compute; reflexivity.
  - reflexivity.
  - vm_compute; reflexivity.
Defined.

(** X9, at sample values: session 0 sends a second call with the id of its
    call in flight. *)
Lemma duplicate_outbound_call_id_witness :
  ∃ w1 w2,
    step Sample.IDFromBytes (SessionRead 0 (Sample.frame MoreSamples.call2)) Sample.inCall
      = Some w1 ∧
    nextId (runtime Sample.inCall) ≠ 0 ∧
    cancelUnary (daemon w1) !! Sample.c = Some (nextId (runtime Sample.inCall)) ∧
    calls (runtime w1) !! 0 = Some Sample.inCallTask ∧
    calls (runtime w1) !! nextId (runtime Sample.inCall) =
      Some (mkCallTask 0 Sample.c MoreSamples.call2 (CallOpening Sample.peerB)) ∧
    ctxErr 0 (cancelWorker Sample.c w1) = false ∧
    ctxErr (nextId (runtime Sample.inCall)) (cancelWorker Sample.c w1) = true ∧
    run Sample.IDFromBytes
      [StreamReadReturned 0 (Sample.frame Sample.answer); SelectResponse 0] w1 = Some w2 ∧
    cancelUnary (daemon w2) !! Sample.c = None ∧
    calls (runtime w2) !! nextId (runtime Sample.inCall) =
      Some (mkCallTask 0 Sample.c MoreSamples.call2 (CallOpening Sample.peerB)) ∧
    cancelWorker Sample.c w2 = w2.
Proof.
  apply (duplicate_outbound_call_id Sample.IDFromBytes 0 4194304 Sample.calling Sample.inCall
           0 Sample.inCallTask 2 0 [] (Sample.frame MoreSamples.call2) MoreSamples.call2
           (mkCallUnaryRequest Sample.peerB "/p/2" [x08]) Sample.peerB
           (Sample.frame Sample.answer)).
  - vm_compute; reflexivity.
  - vm_compute; reflexivity.
  - vm_compute; reflexivity.
  - reflexivity.
  - vm_compute; reflexivity.
  - vm_compute; reflexivity.
  - vm_compute; reflexivity.
  - reflexivity.
  - reflexivity.
  - vm_compute; reflexivity.
Defined.

(** X10, at sample values: the [Cancel] for the call in flight, twice. *)
Lemma cancel_twice_is_cancel_once_witness :
  run Sample.IDFromBytes
    [SessionRead 0 (Sample.frame Sample.cancelCall);
     SessionRead 0 (Sample.frame Sample.cancelCall)] Sample.inCall =
  run Sample.IDFromBytes [SessionRead 0 (Sample.frame Sample.cancelCall)] Sample.inCall.
Proof.
  apply (cancel_twice_is_cancel_once Sample.IDFromBytes 0 (Sample.frame Sample.cancelCall)
           Sample.cancelCall [] Sample.inCall).
  - vm_compute; reflexivity.
  - vm_compute; reflexivity.
  - vm_compute; reflexivity.
  - reflexivity.
Defined.

(** X11, at sample values: session 0 reads the answer to the call it
    handles. *)
Lemma sessionRead_writes_at_most_one_frame_witness :
  ∃ w' frames,
    step Sample.IDFromBytes (SessionRead 0 (Sample.frame Sample.answer)) Sample.inHandling
      = Some w' ∧
    clientFrames (trace w') = clientFrames (trace Sample.inHandling) ++ frames ∧
    length frames ≤ 1 ∧
    (∀ f, f ∈ frames →
       f.1 = 0 ∧
       ∃ req, clientReadMsg (daemon Sample.inHandling) (Sample.frame Sample.answer) = inr req ∧
              RCallId f.2 = CallId req).
Proof.
  apply (sessionRead_writes_at_most_one_frame Sample.IDFromBytes 0
           (Sample.frame Sample.answer) ["/p/1"] Sample.inHandling).
  - vm_compute; reflexivity.
  - vm_compute; reflexivity.
Defined.

(** X15, at sample values: a call to the peer with no bytes. *)
Lemma unparsable_peer_is_rejected_witness :
  ∃ w',
    step Sample.IDFromBytes (SessionRead 0 (Sample.frame MoreSamples.badPeerCall))
      Sample.registered = Some w' ∧
    clientFrames (trace w') =
      clientFrames (trace Sample.registered) ++
        [(0, errorUnaryCall Sample.c "multihash too short. must be >= 2 bytes")] ∧
    streamFrames (trace w') = streamFrames (trace Sample.registered) ∧
    closedStreams (trace w') = closedStreams (trace Sample.registered) ∧
    calls (runtime w') = calls (runtime Sample.registered) ∧
    cancelUnary (daemon w') = delete Sample.c (cancelUnary (daemon Sample.registered)).
Proof.
  apply (unparsable_peer_is_rejected Sample.IDFromBytes 0 4194304 Sample.registering 0
           (Sample.frame MoreSamples.badPeerCall) MoreSamples.badPeerCall
           (mkCallUnaryRequest [] "/p/1" [x07]) "multihash too short. must be >= 2 bytes"
           ["/p/1"] Sample.registered).
  - vm_compute; reflexivity.
  - vm_compute; reflexivity.
  - vm_compute; reflexivity.
  - vm_compute; reflexivity.
  - reflexivity.
  - reflexivity.
  - reflexivity.
Defined.
